(** * The show-archiving script (scripts/archive-shows.ts)

    A shallow embedding of the archive script of the band site: the date
    decision engine ([parseShowDate], [shouldArchiveShow]), the sanity
    checks, the atomic write ([writeShowsFile]) and the archive transaction
    ([archiveShows]), followed by the properties the design document states
    about them.

    Conventions of the model.
    - A JavaScript string is a Rocq [string] holding its UTF-8 bytes.
    - A [Date] is its time value: milliseconds since the epoch, or NaN for
      an invalid date, written [option Z].  The arithmetic on time values
      (differences of at most a few centuries, divided by the length of a
      day) is exact in double precision and is done in [Z].
    - The host supplies the local time zone; the script never names one.
      It is a parameter of every definition that touches local time.
    - The file system is a finite map from paths to file contents, and a
      file content is what [JSON.parse] yields on it.  Every call into
      [fs] that can fail consults a plan of faults, so that a run can be
      followed through a failing write. *)

From Stdlib Require Import ZArith List String Ascii Lia Permutation DecimalString.
From stdpp Require Import gmap strings.

Local Open Scope Z_scope.

(* ===================================================================== *)
(** ** Strings *)
(* ===================================================================== *)

(** The double-quote character of the template literals. *)
Definition dquote : string := String "034"%char EmptyString.

(** [`${n}`] for an integral number. *)
Definition showNumber (n : Z) : string := NilZero.string_of_int (Z.to_int n).

(** [Array.prototype.join]. *)
Fixpoint join (sep : string) (xs : list string) : string :=
  match xs with
  | [] => EmptyString
  | [x] => x
  | x :: rest => x +:+ sep +:+ join sep rest
  end.

Definition code (c : ascii) : N := N_of_ascii c.

Definition inRange (lo hi : N) (c : ascii) : bool :=
  ((lo <=? code c) && (code c <=? hi))%N.

(** [[A-Za-z]] *)
Definition isLetter (c : ascii) : bool := inRange 65 90 c || inRange 97 122 c.

(** [\d] *)
Definition isDigit (c : ascii) : bool := inRange 48 57 c.

(** [\s] on the first character of a UTF-8 text: the rest of the text after
    one white-space or line-terminator character (TAB, LF, VT, FF, CR,
    SPACE, U+00A0, U+1680, U+2000..U+200A, U+2028, U+2029, U+202F, U+205F,
    U+3000, U+FEFF), or [None]. *)
Definition whiteSpace (cs : list ascii) : option (list ascii) :=
  match cs with
  | [] => None
  | c1 :: r1 =>
    if inRange 9 13 c1 || (code c1 =? 32)%N then Some r1 else
    match r1 with
    | [] => None
    | c2 :: r2 =>
      if (code c1 =? 194)%N && (code c2 =? 160)%N then Some r2 else
      match r2 with
      | [] => None
      | c3 :: r3 =>
        if ((code c1 =? 225) && (code c2 =? 154) && (code c3 =? 128))%N
           || ((code c1 =? 226)%N && (code c2 =? 128)%N
               && (inRange 128 138 c3 || inRange 168 169 c3 || (code c3 =? 175)%N))
           || ((code c1 =? 226) && (code c2 =? 129) && (code c3 =? 159))%N
           || ((code c1 =? 227) && (code c2 =? 128) && (code c3 =? 128))%N
           || ((code c1 =? 239) && (code c2 =? 187) && (code c3 =? 191))%N
        then Some r3 else None
      end
    end
  end.

(** [\s*]: greedy, and nothing after it in the pattern can start with
    white space, so no backtracking is ever needed.  [fuel] bounds the
    number of characters skipped; the length of the text is enough. *)
Fixpoint skipWhiteSpace (fuel : nat) (cs : list ascii) : list ascii :=
  match fuel with
  | O => cs
  | S fuel' =>
    match whiteSpace cs with
    | Some rest => skipWhiteSpace fuel' rest
    | None => cs
    end
  end.

(** [\s+] *)
Definition whiteSpaces (cs : list ascii) : option (list ascii) :=
  match whiteSpace cs with
  | Some rest => Some (skipWhiteSpace (List.length rest) rest)
  | None => None
  end.

(** The value of a run of decimal digits. *)
Definition digitsValue (ds : list ascii) : Z :=
  fold_left (fun acc d => 10 * acc + (Z.of_N (code d) - 48)) ds 0.

(** The three parts of a text of the shape
    [/^[A-Za-z]{3}\s+\d{1,2},\s+\d{4}$/]: the word, the digits of the first
    number and the digits of the second. *)
Definition surfaceForm (s : string) : option (list ascii * list ascii * list ascii) :=
  match list_ascii_of_string s with
  | l1 :: l2 :: l3 :: r0 =>
    if isLetter l1 && isLetter l2 && isLetter l3 then
      match whiteSpaces r0 with
      | Some (d1 :: r1) =>
        if isDigit d1 then
          let after_day :=
            match r1 with
            | d2 :: r2 => if isDigit d2 then ([d1; d2], r2) else ([d1], r1)
            | [] => ([d1], r1)
            end in
          match snd after_day with
          | comma :: r3 =>
            if (code comma =? 44)%N then
              match whiteSpaces r3 with
              | Some [y1; y2; y3; y4] =>
                if isDigit y1 && isDigit y2 && isDigit y3 && isDigit y4
                then Some ([l1; l2; l3], fst after_day, [y1; y2; y3; y4])
                else None
              | _ => None
              end
            else None
          | [] => None
          end
        else None
      | _ => None
      end
    else None
  | _ => None
  end.

(** [formatRegex.test(dateString)] *)
Definition formatRegex_test (dateString : string) : bool :=
  match surfaceForm dateString with Some _ => true | None => false end.

(* ===================================================================== *)
(** ** Dates of the host (ECMAScript time values) *)
(* ===================================================================== *)

Definition msPerDay : Z := 1000 * 60 * 60 * 24.
Definition msPerHour : Z := 1000 * 60 * 60.

(** [Math.floor (a / b)] for a positive [b]. *)
Definition floorDiv (a b : Z) : Z := a / b.

Definition Day (t : Z) : Z := floorDiv t msPerDay.

Definition DayFromYear (y : Z) : Z :=
  365 * (y - 1970) + floorDiv (y - 1969) 4 - floorDiv (y - 1901) 100
  + floorDiv (y - 1601) 400.

Definition InLeapYear (y : Z) : bool :=
  ((y mod 4 =? 0) && negb (y mod 100 =? 0)) || (y mod 400 =? 0).

(** The year a day number falls in (days counted from 1 January 1970). *)
Definition YearFromDay (d : Z) : Z :=
  let z := d + 719468 in
  let era := floorDiv z 146097 in
  let doe := z - era * 146097 in
  let yoe := (doe - doe / 1460 + doe / 36524 - doe / 146096) / 365 in
  let doy := doe - (365 * yoe + yoe / 4 - yoe / 100) in
  let mp := (5 * doy + 2) / 153 in
  yoe + era * 400 + (if mp <? 10 then 0 else 1).

Definition YearFromTime (t : Z) : Z := YearFromDay (Day t).

(** Days before the first of month [m] (0 = January) in a year. *)
Definition daysBeforeMonth (leap : bool) (m : Z) : Z :=
  let l := if leap then 1 else 0 in
  match m with
  | 0 => 0 | 1 => 31 | 2 => 59 + l | 3 => 90 + l | 4 => 120 + l
  | 5 => 151 + l | 6 => 181 + l | 7 => 212 + l | 8 => 243 + l
  | 9 => 273 + l | 10 => 304 + l | _ => 334 + l
  end.

(** [MakeDay (year, month, date)]: a [date] beyond the end of the month
    runs into the following month. *)
Definition MakeDay (year month date : Z) : Z :=
  let ym := year + floorDiv month 12 in
  let mn := month mod 12 in
  DayFromYear ym + daysBeforeMonth (InLeapYear ym) mn + date - 1.

Definition MakeDate (day time : Z) : Z := day * msPerDay + time.

(** The local time zone of the host: [LocalTime] turns a time value into
    local time, [UTC] a local time into a time value. *)
Record TimeZone : Type := {
  LocalTime : Z -> Z;
  UTC : Z -> Z
}.

(** A zone whose clocks never change: local time is [offset] ahead. *)
Definition fixedOffset (offset : Z) : TimeZone :=
  {| LocalTime := fun t => t + offset; UTC := fun t => t - offset |}.

(** Central European Time as kept in Amsterdam during 2025: one hour ahead,
    two hours ahead from 30 March 01:00 UTC until 26 October 01:00 UTC.  A
    local time that a clock change skips or repeats is read with the offset
    in force before the change. *)
Definition summerStart2025 : Z := MakeDate (MakeDay 2025 2 30) msPerHour.
Definition summerEnd2025 : Z := MakeDate (MakeDay 2025 9 26) msPerHour.

Definition Amsterdam2025 : TimeZone :=
  {| LocalTime := fun t =>
       if (summerStart2025 <=? t) && (t <? summerEnd2025)
       then t + 2 * msPerHour else t + msPerHour;
     UTC := fun t =>
       if (summerStart2025 + 2 * msPerHour <=? t)
          && (t <? summerEnd2025 + 2 * msPerHour)
       then t - 2 * msPerHour else t - msPerHour |}.

(** A [Date]: its time value, [None] for an invalid date. *)
Definition Date : Type := option Z.

(** [date.getFullYear ()] *)
Definition getFullYear (tz : TimeZone) (t : Z) : Z := YearFromTime (LocalTime tz t).

(** [date.setHours (0, 0, 0, 0)]: the time value of local midnight of the
    date's local day. *)
Definition setHours0 (tz : TimeZone) (t : Z) : Z :=
  UTC tz (MakeDate (Day (LocalTime tz t)) 0).

(** Month names as the host's date parser knows them: the first three
    letters, in any case. *)
Definition lower (c : ascii) : ascii :=
  if inRange 65 90 c then ascii_of_N (code c + 32) else c.

Definition monthNumber (word : list ascii) : option Z :=
  let w := string_of_list_ascii (map lower word) in
  if String.eqb w "jan" then Some 1 else if String.eqb w "feb" then Some 2
  else if String.eqb w "mar" then Some 3 else if String.eqb w "apr" then Some 4
  else if String.eqb w "may" then Some 5 else if String.eqb w "jun" then Some 6
  else if String.eqb w "jul" then Some 7 else if String.eqb w "aug" then Some 8
  else if String.eqb w "sep" then Some 9 else if String.eqb w "oct" then Some 10
  else if String.eqb w "nov" then Some 11 else if String.eqb w "dec" then Some 12
  else None.

Definition between (x lo hi : Z) : bool := (lo <=? x) && (x <=? hi).

(** How the host's parser (Node.js, V8's legacy date parser) composes a day
    from an optional month name and two numbers [c0], [c1] read in that
    order; a third number defaults to 1.  The result is (year, month, day)
    with a month from 1 to 12 and a day from 1 to 31, or nothing. *)
Definition composeDay (named : option Z) (c0 c1 : Z) : option (Z * Z * Z) :=
  let c2 := 1 in
  let ymd :=
    match named with
    | None =>
      if negb (between c0 1 31) then (c0, c1, c2) else (c2, c0, c1)
    | Some m =>
      if negb (between c0 1 31) then (c0, m, c1) else (c1, m, c0)
    end in
  let '(y, m, d) := ymd in
  let y := if between y 0 49 then y + 2000
           else if between y 50 99 then y + 1900 else y in
  if between m 1 12 && between d 1 31 then Some (y, m, d) else None.

(** U+2028 and U+2029 at the head of a text.  The pattern's [\s] takes them
    for white space; the host's date parser does not: it skips white space
    and line terminators only below the letter [A], and reads every other
    character from [A] upwards that is not white space proper as part of a
    word. *)
Definition isLineSeparator (cs : list ascii) : bool :=
  match cs with
  | c1 :: c2 :: c3 :: _ =>
    (code c1 =? 226)%N && (code c2 =? 128)%N && inRange 168 169 c3
  | _ => false
  end.

(** The run of [\s] characters at the head of a text, each marked [true]
    when it is a line separator, and what follows the run. *)
Fixpoint whiteSpaceRun (fuel : nat) (cs : list ascii) : list bool * list ascii :=
  match fuel with
  | O => ([], cs)
  | S fuel' =>
    match whiteSpace cs with
    | Some rest =>
      let (marks, after) := whiteSpaceRun fuel' rest in
      (isLineSeparator cs :: marks, after)
    | None => ([], cs)
    end
  end.

Fixpoint dropLeading (marks : list bool) : list bool :=
  match marks with
  | true :: rest => dropLeading rest
  | _ => marks
  end.

Fixpoint dropDigits (cs : list ascii) : list ascii :=
  match cs with
  | c :: rest => if isDigit c then dropDigits rest else cs
  | [] => []
  end.

(** Whether the host's parser meets, in a text of the surface form, a word
    it gives up on.  Line separators right after the three letters belong to
    that word, which stays a month name by its first three letters.  Any
    later line separator starts a word of its own that names nothing: the
    parser gives up when such a word stands right before the first number,
    or anywhere after it. *)
Definition unreadableWord (s : string) : bool :=
  match list_ascii_of_string s with
  | _ :: _ :: _ :: r0 =>
    let (marks1, r1) := whiteSpaceRun (List.length r0) r0 in
    let r2 := List.tl (dropDigits r1) in
    let (marks2, _) := whiteSpaceRun (List.length r2) r2 in
    List.last (dropLeading marks1) false || existsb (fun mark => mark) marks2
  | _ => false
  end.

(** [new Date (dateString)] on the texts [parseShowDate] hands to it, those
    of the surface form above: the word is a month name or is ignored, the
    two numbers are composed into a day, and the result is local midnight
    of that day.  No other text reaches the constructor; the model answers
    an invalid date for them. *)
Definition newDate (tz : TimeZone) (dateString : string) : Date :=
  match surfaceForm dateString with
  | Some (word, dayDigits, yearDigits) =>
    if unreadableWord dateString then None else
    match composeDay (monthNumber word) (digitsValue dayDigits) (digitsValue yearDigits) with
    | Some (y, m, d) => Some (UTC tz (MakeDate (MakeDay y (m - 1) d) 0))
    | None => None
    end
  | None => None
  end.

(* ===================================================================== *)
(** ** Date parsing and the archive decision *)
(* ===================================================================== *)

Record DateParseResult : Type := {
  success : bool;
  date : Date;
  original : string;
  errors : list string
}.

Record ArchiveDecision : Type := {
  shouldArchive : bool;
  reason : string;
  showDate : Date;
  daysAgo : Z
}.

(** Parse a show date string, format [MMM D, YYYY]. *)
Definition parseShowDate (tz : TimeZone) (dateString : string) : DateParseResult :=
  (* Validation 1: format check *)
  if negb (formatRegex_test dateString) then
    {| success := false; date := None; original := dateString;
       errors := ["Invalid format: " +:+ dquote +:+ dateString +:+ dquote
                  +:+ " (expected: " +:+ dquote +:+ "MMM D, YYYY" +:+ dquote +:+ ")"] |}
  else
    (* Validation 2: the Date constructor; validation 3: a valid date *)
    match newDate tz dateString with
    | None =>
      {| success := false; date := None; original := dateString;
         errors := ["Could not parse: " +:+ dquote +:+ dateString +:+ dquote] |}
    | Some parsed =>
      (* Validation 4: reasonable year *)
      let year := getFullYear tz parsed in
      if (year <? 2020) || (year >? 2030) then
        {| success := false; date := None; original := dateString;
           errors := ["Unreasonable year: " +:+ showNumber year +:+ " in "
                      +:+ dquote +:+ dateString +:+ dquote] |}
      else
        {| success := true; date := Some parsed; original := dateString; errors := [] |}
    end.

(** Determine if a show should be archived based on its date.  The
    reference date is a valid date (the script passes [new Date ()]); a
    successful parse result always carries a date, so the last case below
    is the branch [!parseResult.success] of the script. *)
Definition shouldArchiveShow (tz : TimeZone) (showDateString : string)
    (referenceDate : Z) : ArchiveDecision :=
  let parseResult := parseShowDate tz showDateString in
  match success parseResult, date parseResult with
  | true, Some parsed =>
    (* normalize to midnight *)
    let today := setHours0 tz referenceDate in
    let showDate := setHours0 tz parsed in
    let timeDiff := today - showDate in
    let daysAgo := floorDiv timeDiff msPerDay in
    if showDate <? today then
      {| shouldArchive := true;
         reason := "Show was " +:+ showNumber daysAgo +:+ " day(s) ago";
         showDate := Some showDate; daysAgo := daysAgo |}
    else if showDate =? today then
      {| shouldArchive := false;
         reason := "Show is today (keeping in upcoming)";
         showDate := Some showDate; daysAgo := 0 |}
    else
      {| shouldArchive := false;
         reason := "Show is " +:+ showNumber (Z.abs daysAgo) +:+ " day(s) in the future";
         showDate := Some showDate; daysAgo := daysAgo |}
  | _, _ =>
    {| shouldArchive := false;
       reason := "Could not parse date safely: " +:+ join ", " (errors parseResult);
       showDate := None; daysAgo := 0 |}
  end.

(* ===================================================================== *)
(** ** The documents *)
(* ===================================================================== *)

Inductive Status : Type := tickets | sold_out.

(** A value the script does not look into ([unknown]). *)
#[local] Set Warnings "-register-all".
Inductive JSONValue : Type :=
| JNull
| JBool (b : bool)
| JNumber (n : Z)
| JString (s : string)
| JArray (items : list JSONValue)
| JObject (members : list (string * JSONValue)).

Module Show.
Record t : Type := {
  date : string;
  time : string;
  venue : string;
  city : string;
  status : Status;
  ticketUrl : option string;
  extra : list (string * JSONValue)
}.
End Show.
Abbreviation Show := Show.t.

Record Settings : Type := {
  showPastShows : bool;
  maxUpcomingDisplay : Z;
  maxPastDisplay : Z;
  autoArchiveAfterDays : Z
}.

Record ShowsData : Type := {
  upcoming : list Show;
  past : list Show;
  settings : Settings
}.

Module ArchivedShow.
Record t : Type := {
  date : string;
  venue : string;
  city : string;
  daysAgo : Z
}.
End ArchivedShow.
Abbreviation ArchivedShow := ArchivedShow.t.

Record ArchiveResult : Type := {
  siteName : string;
  filePath : string;
  originalUpcoming : nat;
  originalPast : nat;
  archived : nat;
  remaining : nat;
  totalPast : nat;
  archivedShows : list ArchivedShow;
  result_errors : list string;
  warnings : list string
}.

Record ValidationResult : Type := {
  valid : bool;
  error : option string
}.

(* ===================================================================== *)
(** ** The file system and the effects of the script *)
(* ===================================================================== *)

(** What [JSON.parse] makes of the text of a file: a document of the
    declared shape, or a value [validateShowsStructure] rejects (with the
    error it reports). *)
Inductive Parsed : Type :=
| Structured (data : ShowsData)
| Unstructured (why : string).

(** The text of a file, up to what [JSON.parse] yields on it.  The text
    [JSON.stringify (data, null, 2)] is taken to parse back to [data]; the
    host rewrites what it does not print as read (a number beyond a
    double's precision, a negative zero), which no typed document here
    holds. *)
Inductive FileContent : Type :=
| Json (value : Parsed)
| NotJson.

Definition JSON_stringify (data : ShowsData) : FileContent := Json (Structured data).

Inductive Error : Type :=
| ENOENT (path : string)
| EIO (call : string)
| SyntaxError
| InvalidStructure (message : string).

(** What the environment does to the next call into [fs]: nothing, make it
    throw and change nothing, or (for [writeFileSync]) let it return with a
    file that is not the text it was given.  A call that throws after it
    has changed part of a file (a copy cut short) is not among them. *)
Inductive Fault : Type := NoFault | Fails | Truncates.

(** The calls that change the file system. *)
Inductive FsCall : Type :=
| WriteFile (path : string)
| CopyFile (src dest : string)
| Rename (oldPath newPath : string)
| Unlink (path : string).

Record World : Type := {
  files : gmap string FileContent;
  faults : list Fault;            (* what happens to the coming calls *)
  trace : list FsCall;            (* the changing calls made so far *)
  unhandled : list Error          (* rejections of promises nobody awaits *)
}.

Definition setFiles (fs : gmap string FileContent) (w : World) : World :=
  {| files := fs; faults := faults w; trace := trace w; unhandled := unhandled w |}.

Inductive Outcome (A : Type) : Type :=
| Returns (a : A)
| Throws (e : Error).
Arguments Returns {A} a.
Arguments Throws {A} e.

Definition IO (A : Type) : Type := World -> Outcome A * World.

Definition ret {A} (a : A) : IO A := fun w => (Returns a, w).

Definition throw {A} (e : Error) : IO A := fun w => (Throws e, w).

Definition bind {A B} (m : IO A) (k : A -> IO B) : IO B :=
  fun w =>
    match m w with
    | (Returns a, w') => k a w'
    | (Throws e, w') => (Throws e, w')
    end.

(** [try { body } catch (err) { handler }] *)
Definition tryCatch {A} (body : IO A) (handler : Error -> IO A) : IO A :=
  fun w =>
    match body w with
    | (Returns a, w') => (Returns a, w')
    | (Throws e, w') => handler e w'
    end.

Notation "x <- m ;; k" := (bind m (fun x => k))
  (at level 100, m at next level, right associativity).
Notation "m ;; k" := (bind m (fun _ => k))
  (at level 100, right associativity).

(** A settled promise: an [async] function without [await] runs to its end
    when called, and what it throws rejects the promise it returns. *)
Inductive Promise (A : Type) : Type :=
| Fulfilled (a : A)
| Rejected (e : Error).
Arguments Fulfilled {A} a.
Arguments Rejected {A} e.

Definition async {A} (body : IO A) : IO (Promise A) :=
  fun w =>
    match body w with
    | (Returns a, w') => (Returns (Fulfilled a), w')
    | (Throws e, w') => (Returns (Rejected e), w')
    end.

(** An expression statement whose value is a promise: nothing awaits it and
    nothing catches its rejection. *)
Definition dropPromise {A} (p : Promise A) : IO unit :=
  fun w =>
    match p with
    | Fulfilled _ => (Returns tt, w)
    | Rejected e =>
      (Returns tt, {| files := files w; faults := faults w; trace := trace w;
                      unhandled := unhandled w ++ [e] |})
    end.

(** The fault of the coming call; a plan that has run out leaves every
    later call alone. *)
Definition nextFault : IO Fault :=
  fun w =>
    (Returns (hd NoFault (faults w)),
     {| files := files w; faults := tl (faults w); trace := trace w;
        unhandled := unhandled w |}).

Definition isFails (f : Fault) : bool :=
  match f with Fails => true | _ => false end.

Definition logCall (c : FsCall) : IO unit :=
  fun w => (Returns tt, {| files := files w; faults := faults w;
                           trace := trace w ++ [c]; unhandled := unhandled w |}).

Definition updateFiles (f : gmap string FileContent -> gmap string FileContent) : IO unit :=
  fun w => (Returns tt, setFiles (f (files w)) w).

Definition lookupFile (path : string) : IO (option FileContent) :=
  fun w => (Returns (files w !! path), w).

Definition existsSync (path : string) : IO bool :=
  o <- lookupFile path ;;
  ret (match o with Some _ => true | None => false end).

Definition readFileSync (path : string) : IO FileContent :=
  f <- nextFault ;;
  if isFails f then throw (EIO "readFileSync")
  else
    o <- lookupFile path ;;
    match o with
    | Some content => ret content
    | None => throw (ENOENT path)
    end.

Definition writeFileSync (path : string) (content : FileContent) : IO unit :=
  logCall (WriteFile path) ;;
  f <- nextFault ;;
  match f with
  | Fails => throw (EIO "writeFileSync")
  | Truncates => updateFiles (insert path NotJson)
  | NoFault => updateFiles (insert path content)
  end.

Definition copyFileSync (src dest : string) : IO unit :=
  logCall (CopyFile src dest) ;;
  f <- nextFault ;;
  if isFails f then throw (EIO "copyFileSync")
  else
    o <- lookupFile src ;;
    match o with
    | Some content => updateFiles (insert dest content)
    | None => throw (ENOENT src)
    end.

Definition renameSync (oldPath newPath : string) : IO unit :=
  logCall (Rename oldPath newPath) ;;
  f <- nextFault ;;
  if isFails f then throw (EIO "renameSync")
  else
    o <- lookupFile oldPath ;;
    match o with
    | Some content => updateFiles (fun fs => insert newPath content (delete oldPath fs))
    | None => throw (ENOENT oldPath)
    end.

Definition unlinkSync (path : string) : IO unit :=
  logCall (Unlink path) ;;
  f <- nextFault ;;
  if isFails f then throw (EIO "unlinkSync")
  else
    o <- lookupFile path ;;
    match o with
    | Some _ => updateFiles (delete path)
    | None => throw (ENOENT path)
    end.

Definition JSON_parse (text : FileContent) : IO Parsed :=
  match text with
  | Json v => ret v
  | NotJson => throw SyntaxError
  end.

(** [validateShowsStructure] on a file of this model: a document of the
    declared shape passes, any other value is rejected with its error.
    The check itself, field by field on the decoded value, is
    [Decoded.validateShowsStructure] below. *)
Definition validateShowsStructure (data : Parsed) : ValidationResult :=
  match data with
  | Structured _ => {| valid := true; error := None |}
  | Unstructured why => {| valid := false; error := Some why |}
  end.

(** The [try] block of [writeShowsFile]. *)
Definition writeShowsFile_try (filePath : string) (data : ShowsData) : IO unit :=
  let tmpPath := filePath +:+ ".tmp" in
  let backupPath := filePath +:+ ".backup" in
  (* Write to temporary file *)
  writeFileSync tmpPath (JSON_stringify data) ;;
  (* Validate temporary file *)
  tmpContent <- readFileSync tmpPath ;;
  JSON_parse tmpContent ;;
  (* Create backup of current file *)
  present <- existsSync filePath ;;
  (if (present : bool) then copyFileSync filePath backupPath else ret tt) ;;
  (* Atomic rename *)
  renameSync tmpPath filePath ;;
  (* Cleanup backup *)
  kept <- existsSync backupPath ;;
  if (kept : bool) then unlinkSync backupPath else ret tt.

(** The [catch] block of [writeShowsFile]. *)
Definition writeShowsFile_catch (filePath : string) (err : Error) : IO unit :=
  let tmpPath := filePath +:+ ".tmp" in
  let backupPath := filePath +:+ ".backup" in
  (* Cleanup temporary file if it exists *)
  leftover <- existsSync tmpPath ;;
  (if (leftover : bool) then unlinkSync tmpPath else ret tt) ;;
  (* Restore from backup if it exists *)
  kept <- existsSync backupPath ;;
  (if (kept : bool)
   then copyFileSync backupPath filePath ;; unlinkSync backupPath
   else ret tt) ;;
  throw err.

(** Write shows data to file atomically. *)
Definition writeShowsFile (filePath : string) (data : ShowsData) : IO (Promise unit) :=
  async (tryCatch (writeShowsFile_try filePath data) (writeShowsFile_catch filePath)).

(* ===================================================================== *)
(** ** Archive logic *)
(* ===================================================================== *)

Definition warnAll : string :=
  "⚠️  All upcoming shows would be archived. This seems unusual.".

Definition warnMany (n : nat) : string :=
  "⚠️  " +:+ showNumber (Z.of_nat n) +:+ " shows would be archived. This seems high.".

Definition warnFuture (show : ArchivedShow) : string :=
  "❌ Future show would be archived: " +:+ ArchivedShow.date show +:+ " ("
  +:+ showNumber (Z.abs (ArchivedShow.daysAgo show)) +:+ " days ahead)".

Definition warnToday (show : ArchivedShow) : string :=
  "⚠️  Today's show would be archived: " +:+ ArchivedShow.date show
  +:+ ". This may not be desired.".

(** Perform sanity checks on archive results. *)
Definition performSanityChecks (result : ArchiveResult) : list string :=
  (* Check 1: not archiving all shows *)
  (if (remaining result =? 0)%nat && (0 <? archived result)%nat then [warnAll] else [])
  (* Check 2: not archiving too many shows at once *)
  ++ (if (10 <? archived result)%nat then [warnMany (archived result)] else [])
  (* Check 3: not accidentally archiving future shows *)
  ++ map warnFuture
       (List.filter (fun show => ArchivedShow.daysAgo show <? 0) (archivedShows result))
  (* Check 4: today's shows are preserved *)
  ++ map warnToday
       (List.filter (fun show => ArchivedShow.daysAgo show =? 0) (archivedShows result)).

(** The loop of [archiveShows] over [data.upcoming]: each show is pushed on
    [toArchive] or on [toKeep]. *)
Definition partitionStep (tz : TimeZone) (today : Z)
    (acc : list Show * list Show) (show : Show) : list Show * list Show :=
  let decision := shouldArchiveShow tz (Show.date show) today in
  if shouldArchive decision
  then (fst acc ++ [show], snd acc)
  else (fst acc, snd acc ++ [show]).

Definition partitionUpcoming (tz : TimeZone) (today : Z) (shows : list Show)
    : list Show * list Show :=
  fold_left (partitionStep tz today) shows ([], []).

Definition withWarnings (ws : list string) (r : ArchiveResult) : ArchiveResult :=
  {| siteName := siteName r; filePath := filePath r;
     originalUpcoming := originalUpcoming r; originalPast := originalPast r;
     archived := archived r; remaining := remaining r; totalPast := totalPast r;
     archivedShows := archivedShows r; result_errors := result_errors r;
     warnings := ws |}.

(** The result [archiveShows] creates from the partition, before the
    sanity checks fill in its warnings. *)
Definition createResult (tz : TimeZone) (today : Z) (siteName filePath : string)
    (data : ShowsData) (toArchive toKeep : list Show) : ArchiveResult :=
  let originalUpcoming := List.length (upcoming data) in
  let originalPast := List.length (past data) in
  {| siteName := siteName; filePath := filePath;
     originalUpcoming := originalUpcoming; originalPast := originalPast;
     archived := List.length toArchive;
     remaining := List.length toKeep;
     totalPast := (originalPast + List.length toArchive)%nat;
     archivedShows :=
       map (fun show =>
              let decision := shouldArchiveShow tz (Show.date show) today in
              {| ArchivedShow.date := Show.date show;
                 ArchivedShow.venue := Show.venue show;
                 ArchivedShow.city := Show.city show;
                 ArchivedShow.daysAgo := daysAgo decision |})
           toArchive;
     result_errors := []; warnings := [] |}.

(** Archive shows for a single site.  [today] is the reading of the clock
    ([new Date ()]) the run starts with. *)
Definition archiveShows (tz : TimeZone) (today : Z)
    (siteName filePath backupDir : string) (dryRun : bool) : IO ArchiveResult :=
  (* Read shows data *)
  text <- readFileSync filePath ;;
  parsed <- JSON_parse text ;;
  (* Validate structure *)
  match parsed, validateShowsStructure parsed with
  | Structured data, {| valid := true |} =>
    (* Determine which shows to archive *)
    let '(toArchive, toKeep) := partitionUpcoming tz today (upcoming data) in
    (* Create result *)
    let result := createResult tz today siteName filePath data toArchive toKeep in
    (* Perform sanity checks *)
    let result := withWarnings (performSanityChecks result) result in
    (* If not dry run, write changes *)
    (if negb dryRun && (0 <? List.length toArchive)%nat then
       (* Add archived shows to past array (most recent first) *)
       let newPast := rev toArchive ++ past data in
       let newData :=
         {| upcoming := toKeep; past := newPast; settings := settings data |} in
       (* Write atomically *)
       written <- writeShowsFile filePath newData ;;
       dropPromise written
     else ret tt) ;;
    ret result
  | _, v =>
    throw (InvalidStructure
             ("Invalid shows.json structure: "
              +:+ match error v with Some e => e | None => "undefined" end))
  end.

(* ===================================================================== *)
(** ** The partition the design document describes *)
(* ===================================================================== *)

(** The shows of [shows] the decision engine says to archive, and all the
    others, each in the order of [shows]. *)
Definition toArchive (tz : TimeZone) (today : Z) (shows : list Show) : list Show :=
  List.filter (fun show => shouldArchive (shouldArchiveShow tz (Show.date show) today)) shows.

Definition toKeep (tz : TimeZone) (today : Z) (shows : list Show) : list Show :=
  List.filter (fun show => negb (shouldArchive (shouldArchiveShow tz (Show.date show) today)))
    shows.

(** The document an apply-mode run hands to [writeShowsFile]. *)
Definition archivedDocument (tz : TimeZone) (today : Z) (data : ShowsData) : ShowsData :=
  {| upcoming := toKeep tz today (upcoming data);
     past := rev (toArchive tz today (upcoming data)) ++ past data;
     settings := settings data |}.

(** The result a run reports for a document. *)
Definition reportOf (tz : TimeZone) (today : Z) (siteName filePath : string)
    (data : ShowsData) : ArchiveResult :=
  let result :=
    createResult tz today siteName filePath data
      (toArchive tz today (upcoming data)) (toKeep tz today (upcoming data)) in
  withWarnings (performSanityChecks result) result.

(** The calendar day (counted from 1 January 1970) a time value falls on in
    the local zone. *)
Definition localDay (tz : TimeZone) (t : Z) : Z := Day (LocalTime tz t).

(* ===================================================================== *)
(** ** Sample data *)
(* ===================================================================== *)

Definition sampleSettings : Settings :=
  {| showPastShows := true; maxUpcomingDisplay := 6; maxPastDisplay := 10;
     autoArchiveAfterDays := 1 |}.

Definition sampleShow (date venue : string) : Show :=
  {| Show.date := date; Show.time := "20:00"; Show.venue := venue;
     Show.city := "Amsterdam"; Show.status := tickets;
     Show.ticketUrl := None; Show.extra := [("support", JString "tba")] |}.

(** 6 December 2025, 15:00 UTC. *)
Definition dec6 : Z := MakeDate (MakeDay 2025 11 6) (15 * msPerHour).

(** 31 March 2025, 08:00 UTC, the day after the clocks went forward. *)
Definition mar31 : Z := MakeDate (MakeDay 2025 2 31) (8 * msPerHour).

Definition threeShows : ShowsData :=
  {| upcoming := [sampleShow "Dec 4, 2025" "Paradiso";
                  sampleShow "Dec 6, 2025" "Melkweg";
                  sampleShow "Dec 11, 2025" "Tivoli"];
     past := [sampleShow "Nov 1, 2025" "Effenaar"];
     settings := sampleSettings |}.

Definition fifteenShows : ShowsData :=
  {| upcoming :=
       map (fun d => sampleShow d "Paradiso")
         ["Nov 1, 2025"; "Nov 3, 2025"; "Nov 5, 2025"; "Nov 7, 2025";
          "Nov 9, 2025"; "Nov 11, 2025"; "Nov 13, 2025"; "Nov 15, 2025";
          "Nov 17, 2025"; "Nov 19, 2025"; "Nov 21, 2025"; "Dec 5, 2025";
          "Dec 6, 2025"; "Dec 13, 2025"; "Dec 20, 2025"];
     past := [];
     settings := sampleSettings |}.

Definition worldWith (data : ShowsData) (plan : list Fault) : World :=
  {| files := {[ "shows.json" := Json (Structured data) ]};
     faults := plan; trace := []; unhandled := [] |}.

(** A document with nothing left to archive on 6 December 2025. *)
Definition nothingToArchive : ShowsData :=
  {| upcoming := [sampleShow "Dec 6, 2025" "Melkweg"; sampleShow "Dec 11, 2025" "Tivoli"];
     past := [sampleShow "Dec 4, 2025" "Paradiso"];
     settings := sampleSettings |}.

(** The same evening, three hours later. *)
Definition dec6_later : Z := dec6 + 3 * msPerHour.

(** Midnight in Amsterdam of 4 December 2025. *)
Definition dec4_midnight : Z := UTC Amsterdam2025 (MakeDate (MakeDay 2025 11 4) 0).

(** The text [Dec 4,] followed by U+2028 and [2025]. *)
Definition dec4_lineSeparator : string :=
  "Dec 4," +:+ string_of_list_ascii [ascii_of_N 226; ascii_of_N 128; ascii_of_N 168]
  +:+ "2025".

Definition mainSite : string := "The Dutch Queen (Full Band)".

(** [YearFromDay d] is the year [y] with
    [DayFromYear y <= d < DayFromYear (y + 1)], checked on [count] days
    from [d]. *)
Fixpoint yearChecked (count : nat) (d : Z) : bool :=
  match count with
  | O => true
  | S count' =>
    (DayFromYear (YearFromDay d) <=? d) && (d <? DayFromYear (YearFromDay d + 1))
    && yearChecked count' (d + 1)
  end.

(* ===================================================================== *)
(** ** The structure check on what [JSON.parse] returns *)
(* ===================================================================== *)

(** [validateShowsStructure] as the script has it, on a decoded value
    whose shape is not known yet.  The check of a document of the declared
    shape, above, is its outcome on such a document. *)
Module Decoded.

(** What the check does: it returns a verdict, or the [in] operator throws
    a TypeError on a show that is not an object. *)
Inductive Checked : Type :=
| Verdict (result : ValidationResult)
| ThrowsTypeError.

Definition typeof (v : JSONValue) : string :=
  match v with
  | JNull | JArray _ | JObject _ => "object"
  | JBool _ => "boolean"
  | JNumber _ => "number"
  | JString _ => "string"
  end.

(** The member of an object with a given key; a key listed twice has the
    later value, as [JSON.parse] reads it. *)
Fixpoint member (key : string) (members : list (string * JSONValue)) : option JSONValue :=
  match members with
  | [] => None
  | (k, v) :: rest =>
    match member key rest with
    | Some later => Some later
    | None => if String.eqb k key then Some v else None
    end
  end.

(** [data.key] for the keys the script reads, none of which an array or a
    string has: [None] is [undefined]. *)
Definition getProperty (data : JSONValue) (key : string) : option JSONValue :=
  match data with
  | JObject members => member key members
  | _ => None
  end.

(** [!value] is [false] *)
Definition truthy (value : option JSONValue) : bool :=
  match value with
  | None | Some JNull => false
  | Some (JBool b) => b
  | Some (JNumber n) => negb (n =? 0)
  | Some (JString s) => negb (String.eqb s EmptyString)
  | Some (JArray _) | Some (JObject _) => true
  end.

Definition isArray (value : option JSONValue) : bool :=
  match value with Some (JArray _) => true | _ => false end.

(** [typeof value === 'object'] *)
Definition isObjectType (value : option JSONValue) : bool :=
  match value with Some v => String.eqb (typeof v) "object" | None => false end.

(** [field in show] for a required field: [None] where the operator
    throws, on a value that is not an object.  An array has none of the
    required fields. *)
Definition hasField (field : string) (show : JSONValue) : option bool :=
  match show with
  | JObject members =>
    Some (match member field members with Some _ => true | None => false end)
  | JArray _ => Some false
  | _ => None
  end.

Definition requiredFields : list string := ["date"; "time"; "venue"; "city"; "status"].

Definition invalid (message : string) : Checked :=
  Verdict {| valid := false; error := Some message |}.

(** The inner loop: the first required field the show lacks. *)
Fixpoint checkFields (fields : list string) (show : JSONValue) : option (option string) :=
  match fields with
  | [] => Some None
  | field :: rest =>
    match hasField field show with
    | None => None
    | Some false => Some (Some field)
    | Some true => checkFields rest show
    end
  end.

(** The outer loop, from index [i]. *)
Fixpoint checkShows (i : nat) (shows : list JSONValue) : Checked :=
  match shows with
  | [] => Verdict {| valid := true; error := None |}
  | show :: rest =>
    match checkFields requiredFields show with
    | None => ThrowsTypeError
    | Some (Some field) =>
      invalid ("Upcoming show #" +:+ showNumber (Z.of_nat (i + 1))
               +:+ " missing field: " +:+ field)
    | Some None => checkShows (S i) rest
    end
  end.

Definition validateShowsStructure (data : JSONValue) : Checked :=
  if negb (String.eqb (typeof data) "object")
     || match data with JNull => true | _ => false end
  then invalid "Data is not an object"
  else
    (* Required fields *)
    if negb (truthy (getProperty data "upcoming"))
       || negb (isArray (getProperty data "upcoming"))
    then invalid ("Missing or invalid " +:+ dquote +:+ "upcoming" +:+ dquote +:+ " array")
    else if negb (truthy (getProperty data "past"))
            || negb (isArray (getProperty data "past"))
    then invalid ("Missing or invalid " +:+ dquote +:+ "past" +:+ dquote +:+ " array")
    else if negb (truthy (getProperty data "settings"))
            || negb (isObjectType (getProperty data "settings"))
    then invalid ("Missing or invalid " +:+ dquote +:+ "settings" +:+ dquote +:+ " object")
    else
      (* Validate each show has required fields *)
      match getProperty data "upcoming" with
      | Some (JArray shows) => checkShows 0 shows
      | _ => Verdict {| valid := true; error := None |}
      end.

(** The decoded value of a document of the declared shape. *)
Definition statusText (s : Status) : string :=
  match s with tickets => "tickets" | sold_out => "sold-out" end.

Definition ofShow (show : Show) : JSONValue :=
  JObject
    ([("date", JString (Show.date show)); ("time", JString (Show.time show));
      ("venue", JString (Show.venue show)); ("city", JString (Show.city show));
      ("status", JString (statusText (Show.status show)))]
     ++ match Show.ticketUrl show with
        | Some url => [("ticketUrl", JString url)]
        | None => []
        end
     ++ Show.extra show).

Definition ofSettings (s : Settings) : JSONValue :=
  JObject [("showPastShows", JBool (showPastShows s));
           ("maxUpcomingDisplay", JNumber (maxUpcomingDisplay s));
           ("maxPastDisplay", JNumber (maxPastDisplay s));
           ("autoArchiveAfterDays", JNumber (autoArchiveAfterDays s))].

Definition ofShowsData (data : ShowsData) : JSONValue :=
  JObject [("upcoming", JArray (map ofShow (upcoming data)));
           ("past", JArray (map ofShow (past data)));
           ("settings", ofSettings (settings data))].

(** A show that passes the inner loop: an object with every required
    field. *)
Definition complete (show : JSONValue) : Prop :=
  exists members,
    show = JObject members
    /\ forall field, In field requiredFields -> member field members <> None.

(** An object or an array: what is truthy and of type [object]. *)
Definition objectOrArray (value : JSONValue) : Prop :=
  match value with JObject _ | JArray _ => True | _ => False end.

End Decoded.

(* ===================================================================== *)
(** ** The report of a run *)
(* ===================================================================== *)

(** The reports [generateReport] writes for a run.  (Its third kind, the
    backup report, prints the hash, the size and the modification time of
    the file, which the file system of this model does not have.) *)
Inductive RunReport : Type := dryrun | execute.

Definition newline : string := String "010"%char EmptyString.

(** [items.forEach ((item, index) => report += line)], the indices
    starting at [index]. *)
Fixpoint forEachLine {A : Type} (line : nat -> A -> string) (index : nat)
    (items : list A) : string :=
  match items with
  | [] => EmptyString
  | item :: rest => line index item +:+ forEachLine line (S index) rest
  end.

Definition archivedLine (index : nat) (show : ArchivedShow) : string :=
  showNumber (Z.of_nat (index + 1)) +:+ ". **" +:+ ArchivedShow.date show +:+ "** - "
  +:+ ArchivedShow.venue show +:+ ", " +:+ ArchivedShow.city show +:+ " ("
  +:+ showNumber (ArchivedShow.daysAgo show) +:+ " day(s) ago)" +:+ newline.

Definition numberedLine (index : nat) (text : string) : string :=
  showNumber (Z.of_nat (index + 1)) +:+ ". " +:+ text +:+ newline.

(** Generate the markdown report of a dry run or of an execution.
    [timestamp] is the clock's ISO text cut to the second. *)
Definition generateReport (timestamp : string) (result : ArchiveResult)
    (backupPath : string) (reportType : RunReport) : string :=
  let toBe := match reportType with dryrun => "To Be" | execute => EmptyString end in
  ("# Shows Archive "
   +:+ match reportType with dryrun => "Dry Run" | execute => "Execution" end
   +:+ " Report" +:+ newline +:+ newline)
  +:+ ("**Generated:** " +:+ timestamp +:+ newline)
  +:+ ("**Website:** " +:+ siteName result +:+ newline)
  +:+ ("**File:** " +:+ filePath result +:+ newline +:+ newline)
  +:+ ("## Summary" +:+ newline +:+ newline)
  +:+ ("- **Original upcoming shows:** "
       +:+ showNumber (Z.of_nat (originalUpcoming result)) +:+ newline)
  +:+ ("- **Original past shows:** "
       +:+ showNumber (Z.of_nat (originalPast result)) +:+ newline)
  +:+ ("- **Shows archived:** " +:+ showNumber (Z.of_nat (archived result)) +:+ newline)
  +:+ ("- **Remaining upcoming shows:** "
       +:+ showNumber (Z.of_nat (remaining result)) +:+ newline)
  +:+ ("- **Total past shows:** " +:+ showNumber (Z.of_nat (totalPast result))
       +:+ newline +:+ newline)
  +:+ (if (0 <? archived result)%nat then
         ("## Shows " +:+ toBe +:+ " Archived" +:+ newline +:+ newline)
         +:+ forEachLine archivedLine 0 (archivedShows result)
         +:+ newline
       else
         ("## No Shows " +:+ toBe +:+ " Archived" +:+ newline +:+ newline)
         +:+ ("All shows are either today or in the future." +:+ newline +:+ newline))
  +:+ (if (0 <? List.length (warnings result))%nat then
         ("## Warnings" +:+ newline +:+ newline)
         +:+ forEachLine numberedLine 0 (warnings result)
         +:+ newline
       else EmptyString)
  +:+ (if (0 <? List.length (result_errors result))%nat then
         ("## Errors" +:+ newline +:+ newline)
         +:+ forEachLine numberedLine 0 (result_errors result)
         +:+ newline
       else EmptyString).

(** [piece] is part of the text [whole]. *)
Definition occursIn (piece whole : string) : Prop :=
  exists before after, whole = before +:+ piece +:+ after.

(* ===================================================================== *)
(** ** What a run leaves alone *)
(* ===================================================================== *)

(** A computation keeps every file outside [paths] as it is. *)
Definition keepsOthers {A} (paths : list string) (m : IO A) : Prop :=
  forall (w : World) (k : string),
    ~ In k paths -> files (snd (m w)) !! k = files w !! k.

(** The three paths [writeShowsFile] works on. *)
Definition writePaths (filePath : string) : list string :=
  [filePath; filePath +:+ ".tmp"; filePath +:+ ".backup"].

(** A world where an earlier run left its [.backup] copy behind. *)
Definition worldWithStaleBackup (plan : list Fault) : World :=
  {| files := {[ "shows.json" := Json (Structured threeShows);
                 "shows.json.backup" := Json (Structured nothingToArchive) ]};
     faults := plan; trace := []; unhandled := [] |}.

(** An older document of the same site, with other settings and another
    show. *)
Definition olderDocument : ShowsData :=
  {| upcoming := [sampleShow "Oct 3, 2025" "Doornroosje"];
     past := [];
     settings := {| showPastShows := false; maxUpcomingDisplay := 3;
                    maxPastDisplay := 5; autoArchiveAfterDays := 1 |} |}.

(** A world where an interrupted run left a [.backup] copy of that older
    document beside the current file. *)
Definition worldWithOlderBackup (plan : list Fault) : World :=
  {| files := {[ "shows.json" := Json (Structured threeShows);
                 "shows.json.backup" := Json (Structured olderDocument) ]};
     faults := plan; trace := []; unhandled := [] |}.

(** A world whose shows file is not JSON. *)
Definition worldWithBrokenFile (plan : list Fault) : World :=
  {| files := {[ "shows.json" := NotJson ]};
     faults := plan; trace := []; unhandled := [] |}.

(** A world with the shows files of two sites. *)
Definition worldWithTwoSites (plan : list Fault) : World :=
  {| files := {[ "shows.json" := Json (Structured threeShows);
                 "unplugged/shows.json" := Json (Structured fifteenShows) ]};
     faults := plan; trace := []; unhandled := [] |}.

(** A decoded document whose second upcoming show has no venue, and whose
    past shows are not shows at all. *)
Definition showWithoutVenue : JSONValue :=
  JObject [("date", JString "Dec 11, 2025"); ("time", JString "20:00");
           ("city", JString "Utrecht"); ("status", JString "tickets")].

Definition documentWithFault : JSONValue :=
  JObject [("upcoming",
            JArray [Decoded.ofShow (sampleShow "Dec 4, 2025" "Paradiso"); showWithoutVenue;
                    JNull]);
           ("past", JArray [JNull; JNumber 7]);
           ("settings", JObject [])].

(* ===================================================================== *)
(** ** Tactics: running the script on a symbolic file system *)
(* ===================================================================== *)

Ltac fs_lookup :=
  first
    [ rewrite lookup_insert_eq
    | rewrite lookup_insert_ne by (assumption || (apply not_eq_sym; assumption))
    | rewrite lookup_delete_eq
    | rewrite lookup_delete_ne by (assumption || (apply not_eq_sym; assumption))
    | match goal with H : _ !! _ = _ |- _ => rewrite H end ].

Ltac fs_unfold :=
  unfold writeShowsFile_try, writeShowsFile_catch, bind, writeFileSync, readFileSync,
    copyFileSync, renameSync, unlinkSync, existsSync, bind, logCall, nextFault,
    updateFiles, lookupFile, setFiles, JSON_parse, JSON_stringify.

Ltac fs_case :=
  match goal with
  | |- context [isFails ?f] => destruct (isFails f) eqn:?
  | |- context [match hd NoFault ?plan with NoFault => _ | Fails => _ | Truncates => _ end] =>
    destruct (hd NoFault plan) eqn:?
  end.

Ltac fs_run :=
  repeat first
    [ fs_lookup
    | progress cbn [files faults trace unhandled fst snd hd tl isFails]
    | progress unfold ret, throw
    | fs_case ].

Ltac fs_done :=
  eexists; eexists; (split; [reflexivity |]); cbn [files]; repeat fs_lookup; auto.

Ltac fs_split :=
  match goal with
  | |- context [match ?fs !! ?k with Some _ => _ | None => _ end] =>
    is_var fs; destruct (fs !! k) eqn:?
  end.

Ltac fs_explore :=
  repeat first
    [ fs_lookup
    | progress cbn [files faults trace unhandled fst snd hd tl isFails]
    | progress unfold ret, throw
    | fs_case
    | fs_split ].

Ltac map_cases :=
  apply map_eq; intros ?;
  repeat first [rewrite lookup_insert | rewrite lookup_delete | case_decide; subst];
  congruence.

(* ===================================================================== *)
(** ** The date decision engine *)
(* ===================================================================== *)

(** The fuel [whiteSpaces] gives to [skipWhiteSpace] is enough: what is
    left starts with no white space. *)
Lemma whiteSpace_shorter (cs rest : list ascii) :
  whiteSpace cs = Some rest -> (List.length rest < List.length cs)%nat.
Proof.
  unfold whiteSpace. destruct cs as [| c1 [| c2 [| c3 r3]]]; try discriminate.
  - destruct (_ || _); [| discriminate]. intros [= <-]. simpl. lia.
  - destruct (_ || _); [intros [= <-]; simpl; lia |].
    destruct (_ && _); [| discriminate]. intros [= <-]. simpl. lia.
  - destruct (_ || _); [intros [= <-]; simpl; lia |].
    destruct (_ && _); [intros [= <-]; simpl; lia |].
    match goal with |- context [if ?b then _ else _] => destruct b end;
      [| discriminate]. intros [= <-]. simpl. lia.
Qed.

Lemma skipWhiteSpace_complete (fuel : nat) (cs : list ascii) :
  (List.length cs <= fuel)%nat -> whiteSpace (skipWhiteSpace fuel cs) = None.
Proof.
  revert cs. induction fuel as [| fuel IH]; intros cs Hlen.
  - destruct cs; [reflexivity | simpl in Hlen; lia].
  - simpl. destruct (whiteSpace cs) as [rest |] eqn:Hws; [| exact Hws].
    apply IH. apply whiteSpace_shorter in Hws. lia.
Qed.

(** The format check on a few texts. *)
Example formatRegex_samples :
  map formatRegex_test
    ["Dec 4, 2025"; "dec 04,  2025"; "Dec 4,2025"; "December 4, 2025"; "Dec 4, 25";
     "Dec 123, 2025"; " Dec 4, 2025"; "Dec 4, 2025 "]
  = [true; true; false; false; false; false; false; false].
Proof. vm_compute. reflexivity. Qed.

(** What the Date constructor makes of texts that pass the format check: a
    day beyond the end of the month runs on, a day beyond 31 or an unknown
    month name gives no date, a year below 50 is read in this century. *)
(** A line separator passes the pattern and stops the host's parser: the
    date is reported invalid, and the show is kept. *)
Example newDate_line_separator :
  formatRegex_test dec4_lineSeparator = true
  /\ newDate (fixedOffset 0) dec4_lineSeparator = None
  /\ shouldArchive (shouldArchiveShow (fixedOffset 0) dec4_lineSeparator dec6) = false.
Proof. repeat split; vm_compute; reflexivity. Qed.

Example newDate_samples :
  newDate (fixedOffset 0) "Dec 4, 2025" = Some (MakeDate (MakeDay 2025 11 4) 0)
  /\ newDate (fixedOffset 0) "Feb 30, 2025" = Some (MakeDate (MakeDay 2025 2 2) 0)
  /\ newDate (fixedOffset 0) "Dec 32, 2025" = None
  /\ newDate (fixedOffset 0) "Foo 4, 2025" = None
  /\ newDate (fixedOffset 0) "Dec 4, 0025" = Some (MakeDate (MakeDay 2025 11 4) 0)
  /\ success (parseShowDate (fixedOffset 0) "Dec 4, 2031") = false
  /\ success (parseShowDate (fixedOffset 0) "Dec 4, 2019") = false.
Proof. vm_compute. repeat split. Qed.

(** The closed form of [YearFromDay] agrees with [DayFromYear] on every day
    from 1 January 2000 to the end of 2049. *)
Example YearFromDay_checked : yearChecked (Z.to_nat 18263) (DayFromYear 2000) = true.
Proof. vm_compute. reflexivity. Qed.

(** The decisions on 6 December 2025 for shows of 4, 6 and 11 December. *)
Example decisions_on_dec6 :
  map (fun d => let r := shouldArchiveShow Amsterdam2025 d dec6 in
                (shouldArchive r, daysAgo r, reason r))
    ["Dec 4, 2025"; "Dec 6, 2025"; "Dec 11, 2025"]
  = [(true, 2, "Show was 2 day(s) ago");
     (false, 0, "Show is today (keeping in upcoming)");
     (false, -5, "Show is 5 day(s) in the future")].
Proof. vm_compute. reflexivity. Qed.

Section Engine.

Variable tz : TimeZone.

Lemma msPerDay_pos : 0 < msPerDay.
Proof. reflexivity. Qed.

Lemma parse_failure_keeps (s : string) (ref : Z) :
  success (parseShowDate tz s) = false ->
  shouldArchiveShow tz s ref =
    {| shouldArchive := false;
       reason := "Could not parse date safely: " +:+ join ", " (errors (parseShowDate tz s));
       showDate := None; daysAgo := 0 |}.
Proof.
  intros H. unfold shouldArchiveShow. rewrite H. reflexivity.
Qed.

Lemma parse_success_inv (s : string) :
  success (parseShowDate tz s) = true ->
  exists parsed,
    date (parseShowDate tz s) = Some parsed /\ newDate tz s = Some parsed
    /\ formatRegex_test s = true
    /\ 2020 <= getFullYear tz parsed <= 2030.
Proof.
  unfold parseShowDate.
  destruct (formatRegex_test s); simpl; [| discriminate].
  destruct (newDate tz s) as [parsed |]; simpl; [| discriminate].
  destruct (getFullYear tz parsed <? 2020) eqn:Hlo; simpl; [discriminate |].
  destruct (getFullYear tz parsed >? 2030) eqn:Hhi; simpl; [discriminate |].
  intros _. exists parsed. repeat split; lia.
Qed.

(** C1. For a date string that parses successfully, the decision is to
    archive exactly when the show date, normalized to midnight, is strictly
    before the reference date normalized to midnight; a show on the
    reference day and a show after it are kept. *)
Theorem archive_iff_strictly_before (s : string) (ref parsed : Z) :
  success (parseShowDate tz s) = true ->
  date (parseShowDate tz s) = Some parsed ->
  (shouldArchive (shouldArchiveShow tz s ref) = true
     <-> setHours0 tz parsed < setHours0 tz ref)
  /\ (setHours0 tz parsed = setHours0 tz ref ->
      shouldArchive (shouldArchiveShow tz s ref) = false)
  /\ (setHours0 tz ref < setHours0 tz parsed ->
      shouldArchive (shouldArchiveShow tz s ref) = false).
Proof.
  intros Hs Hd. unfold shouldArchiveShow. rewrite Hs, Hd.
  destruct (Z.ltb_spec (setHours0 tz parsed) (setHours0 tz ref)) as [Hlt | Hge];
    [| destruct (Z.eqb_spec (setHours0 tz parsed) (setHours0 tz ref)) as [Heq | Hne]];
    simpl; repeat split; intros; try reflexivity; try lia; try discriminate.
Qed.

(** The decision reads the reference date through its midnight only. *)
Lemma decision_same_day (s : string) (ref1 ref2 : Z) :
  setHours0 tz ref1 = setHours0 tz ref2 ->
  shouldArchiveShow tz s ref1 = shouldArchiveShow tz s ref2.
Proof.
  intros H. unfold shouldArchiveShow. rewrite H. reflexivity.
Qed.

(** The sign of [daysAgo], in any time zone: negative for a show after the
    reference day, zero for a show on it, never negative for a show before. *)
Lemma daysAgo_sign (s : string) (ref parsed : Z) :
  success (parseShowDate tz s) = true ->
  date (parseShowDate tz s) = Some parsed ->
  (setHours0 tz ref < setHours0 tz parsed -> daysAgo (shouldArchiveShow tz s ref) < 0)
  /\ (setHours0 tz parsed = setHours0 tz ref -> daysAgo (shouldArchiveShow tz s ref) = 0)
  /\ (setHours0 tz parsed < setHours0 tz ref -> 0 <= daysAgo (shouldArchiveShow tz s ref)).
Proof.
  intros Hs Hd. unfold shouldArchiveShow. rewrite Hs, Hd.
  pose proof msPerDay_pos as Hpos.
  destruct (Z.ltb_spec (setHours0 tz parsed) (setHours0 tz ref)) as [Hlt | Hge];
    [| destruct (Z.eqb_spec (setHours0 tz parsed) (setHours0 tz ref)) as [Heq | Hne]];
    simpl; unfold floorDiv; repeat split; intros; try lia.
  - apply Z.div_pos; lia.
  - apply Z.div_lt_upper_bound; lia.
Qed.

Lemma parse_failure_cases (s : string) :
  formatRegex_test s = false
  \/ newDate tz s = None
  \/ (exists parsed, newDate tz s = Some parsed
        /\ (getFullYear tz parsed < 2020 \/ 2030 < getFullYear tz parsed)) ->
  success (parseShowDate tz s) = false.
Proof.
  unfold parseShowDate. intros [Hf | [Hn | [parsed [Hp Hy]]]].
  - rewrite Hf. reflexivity.
  - destruct (formatRegex_test s); [| reflexivity]. rewrite Hn. reflexivity.
  - destruct (formatRegex_test s); [| reflexivity]. rewrite Hp. simpl.
    destruct (Z.ltb_spec (getFullYear tz parsed) 2020); [reflexivity |].
    destruct (Z.gtb_spec (getFullYear tz parsed) 2030); [reflexivity | lia].
Qed.

Lemma reason_not_empty (s : string) (ref : Z) :
  reason (shouldArchiveShow tz s ref) <> EmptyString.
Proof.
  unfold shouldArchiveShow.
  destruct (success (parseShowDate tz s)); [destruct (date (parseShowDate tz s)) |];
    try (simpl; discriminate).
  destruct (_ <? _); [simpl; discriminate |].
  destruct (_ =? _); simpl; discriminate.
Qed.

(** C3. [shouldArchiveShow] is total: for every string and reference date
    it yields a decision whose reason is not empty.  A string that fails
    the format check, that the Date constructor cannot parse, or whose year
    is outside 2020..2030 is kept, with no show date; so are the four
    strings the design document lists. *)
Theorem unparseable_is_kept (s : string) (ref : Z) :
  reason (shouldArchiveShow tz s ref) <> EmptyString
  /\ (formatRegex_test s = false
      \/ newDate tz s = None
      \/ (exists parsed, newDate tz s = Some parsed
            /\ (getFullYear tz parsed < 2020 \/ 2030 < getFullYear tz parsed)) ->
      shouldArchive (shouldArchiveShow tz s ref) = false
      /\ showDate (shouldArchiveShow tz s ref) = None)
  /\ Forall (fun bad => shouldArchive (shouldArchiveShow tz bad ref) = false)
       ["13/25/2025"; "Dec 32, 2025"; "next tuesday"; "Dec 4 2025"].
Proof.
  split; [apply reason_not_empty |]. split.
  - intros H. apply parse_failure_cases in H.
    rewrite (parse_failure_keeps s ref H). split; reflexivity.
  - repeat constructor; rewrite parse_failure_keeps; try reflexivity.
Qed.

End Engine.

(** In a zone whose clocks never change, [daysAgo] is the difference of
    the two calendar days. *)
Lemma daysAgo_fixedOffset (offset : Z) (s : string) (ref parsed : Z) :
  success (parseShowDate (fixedOffset offset) s) = true ->
  date (parseShowDate (fixedOffset offset) s) = Some parsed ->
  daysAgo (shouldArchiveShow (fixedOffset offset) s ref)
  = localDay (fixedOffset offset) ref - localDay (fixedOffset offset) parsed.
Proof.
  intros Hs Hd. unfold shouldArchiveShow. rewrite Hs, Hd.
  unfold setHours0, localDay, MakeDate, floorDiv. simpl.
  set (a := Day (ref + offset)). set (b := Day (parsed + offset)).
  assert (Hdiff : (a * msPerDay + 0 - offset - (b * msPerDay + 0 - offset)) / msPerDay = a - b).
  { replace (a * msPerDay + 0 - offset - (b * msPerDay + 0 - offset))
      with ((a - b) * msPerDay) by ring.
    apply Z.div_mul. discriminate. }
  destruct (Z.ltb_spec (b * msPerDay + 0 - offset) (a * msPerDay + 0 - offset));
    [| destruct (Z.eqb_spec (b * msPerDay + 0 - offset) (a * msPerDay + 0 - offset))];
    simpl; try exact Hdiff.
  pose proof msPerDay_pos. nia.
Qed.

(** C9. In Amsterdam a show of 30 March 2025 and a run on 31 March 2025 are
    one calendar day apart, but the two midnights are 23 hours apart: the
    show is archived with [daysAgo] 0, and the run warns that a show of
    today would be archived.  A show of 15 March seen from 1 April, 17
    days later, gets [daysAgo] 16. *)
Theorem daysAgo_after_clock_change :
  (exists parsed,
      date (parseShowDate Amsterdam2025 "Mar 30, 2025") = Some parsed
      /\ localDay Amsterdam2025 mar31 - localDay Amsterdam2025 parsed = 1
      /\ setHours0 Amsterdam2025 mar31 - setHours0 Amsterdam2025 parsed = 23 * msPerHour)
  /\ shouldArchive (shouldArchiveShow Amsterdam2025 "Mar 30, 2025" mar31) = true
  /\ daysAgo (shouldArchiveShow Amsterdam2025 "Mar 30, 2025" mar31) = 0
  /\ reason (shouldArchiveShow Amsterdam2025 "Mar 30, 2025" mar31) = "Show was 0 day(s) ago"
  /\ (exists parsed,
      date (parseShowDate Amsterdam2025 "Mar 15, 2025") = Some parsed
      /\ localDay Amsterdam2025 (mar31 + msPerDay) - localDay Amsterdam2025 parsed = 17)
  /\ daysAgo (shouldArchiveShow Amsterdam2025 "Mar 15, 2025" (mar31 + msPerDay)) = 16.
Proof.
  split; [exists (MakeDate (MakeDay 2025 2 30) 0 - msPerHour); vm_compute; repeat split |].
  split; [vm_compute; reflexivity |]. split; [vm_compute; reflexivity |].
  split; [vm_compute; reflexivity |].
  split; [exists (MakeDate (MakeDay 2025 2 15) 0 - msPerHour); vm_compute; repeat split |].
  vm_compute. reflexivity.
Qed.

(* ===================================================================== *)
(** ** The atomic write *)
(* ===================================================================== *)

Section Paths.
Variable path : string.

Lemma append_length (a b : string) :
  String.length (a +:+ b) = (String.length a + String.length b)%nat.
Proof. induction a as [| c a IH]; simpl; [reflexivity | now rewrite IH]. Qed.

Lemma append_inj_r (p a b : string) : p +:+ a = p +:+ b -> a = b.
Proof. induction p as [| c p IH]; simpl; intros H; [exact H | injection H; auto]. Qed.

Lemma tmp_ne_path : path +:+ ".tmp" <> path.
Proof.
  intros Heq. apply (f_equal String.length) in Heq. rewrite append_length in Heq.
  simpl in Heq. lia.
Qed.

Lemma backup_ne_path : path +:+ ".backup" <> path.
Proof.
  intros Heq. apply (f_equal String.length) in Heq. rewrite append_length in Heq.
  simpl in Heq. lia.
Qed.

Lemma tmp_ne_backup : path +:+ ".tmp" <> path +:+ ".backup".
Proof. intros H. apply append_inj_r in H. discriminate. Qed.
End Paths.

Section AtomicWrite.
Variables (path : string) (data : ShowsData).

Lemma catch_restores (err : Error) (w : World) (c old : FileContent) :
  files w !! path = Some c ->
  files w !! (path +:+ ".backup") = None \/ files w !! (path +:+ ".backup") = Some old ->
  exists e w',
    writeShowsFile_catch path err w = (Throws e, w')
    /\ (files w' !! path = Some c \/ files w' !! path = Some old).
Proof.
  intros Hc Hb. pose proof (tmp_ne_path path); pose proof (backup_ne_path path);
  pose proof (tmp_ne_backup path). destruct w as [fs plan tr un]. cbn [files] in *.
  fs_unfold.
  destruct (fs !! (path +:+ ".tmp")) as [t |] eqn:Ht; destruct Hb as [Hb | Hb].
  all: fs_run.
  all: fs_done.
Qed.

Lemma writeShowsFile_old_or_new (w : World) (old : FileContent) :
  files w !! path = Some old ->
  files w !! (path +:+ ".backup") = None ->
  exists p w',
    writeShowsFile path data w = (Returns p, w')
    /\ (files w' !! path = Some old
        \/ files w' !! path = Some (JSON_stringify data)).
Proof.
  intros Hold Hnb. pose proof (tmp_ne_path path); pose proof (backup_ne_path path);
  pose proof (tmp_ne_backup path). destruct w as [fs plan tr un]. cbn [files] in *.
  unfold writeShowsFile, async, tryCatch.
  unfold writeShowsFile_try, bind, writeFileSync, readFileSync,
    copyFileSync, renameSync, unlinkSync, existsSync, bind, logCall, nextFault,
    updateFiles, lookupFile, setFiles, JSON_parse, JSON_stringify.
  fs_run.
  all: try (fs_done; fail).
  all: match goal with
       | |- context [writeShowsFile_catch ?p ?e ?w] =>
         let H := fresh in
         let e' := fresh "e" in
         let w' := fresh "w" in
         let Hr := fresh "Hr" in
         let Hw := fresh "Hw" in
         destruct (catch_restores e w
                     (match files w !! p with Some c => c | None => old end) old)
           as (e' & w' & Hr & Hw);
         [ cbn [files]; repeat fs_lookup; reflexivity
         | cbn [files]; repeat fs_lookup; auto
         | rewrite Hr; cbn [files] in Hw; repeat (rewrite ?lookup_insert_eq, ?lookup_insert_ne, ?lookup_delete_ne, ?Hold in Hw by (assumption || (apply not_eq_sym; assumption)));
           eexists; eexists; split; [reflexivity | tauto ] ]
       end.
Qed.

Lemma writeShowsFile_succeeds (fs : gmap string FileContent) (tr : list FsCall)
    (un : list Error) (old : FileContent) :
  fs !! path = Some old ->
  writeShowsFile path data {| files := fs; faults := []; trace := tr; unhandled := un |}
  = (Returns (Fulfilled tt),
     {| files := delete (path +:+ ".backup")
                   (<[path := JSON_stringify data]>
                      (delete (path +:+ ".tmp")
                         (<[path +:+ ".backup" := old]>
                            (<[path +:+ ".tmp" := JSON_stringify data]> fs))));
        faults := [];
        trace := tr ++ [WriteFile (path +:+ ".tmp"); CopyFile path (path +:+ ".backup");
                        Rename (path +:+ ".tmp") path; Unlink (path +:+ ".backup")];
        unhandled := un |}).
Proof.
  intros Hold. pose proof (tmp_ne_path path); pose proof (backup_ne_path path);
  pose proof (tmp_ne_backup path).
  unfold writeShowsFile, async, tryCatch. fs_unfold. fs_run.
  repeat rewrite <- app_assoc. reflexivity.
Qed.

(** A failure of one step of the write (the temporary file cannot be
    written, is written wrongly, cannot be read back, the copy or the rename
    fails), the calls of the clean-up working: the promise is rejected, the
    target holds what it held, and neither the temporary file nor the
    [.backup] copy is left. *)
Lemma writeShowsFile_rollback (fs : gmap string FileContent) (plan : list Fault)
    (tr : list FsCall) (un : list Error) (old : FileContent) :
  fs !! path = Some old ->
  fs !! (path +:+ ".backup") = None ->
  In plan [[Fails]; [Truncates]; [NoFault; Fails]; [NoFault; NoFault; Fails];
           [NoFault; NoFault; NoFault; Fails]] ->
  exists e w',
    writeShowsFile path data {| files := fs; faults := plan; trace := tr; unhandled := un |}
    = (Returns (Rejected e), w')
    /\ files w' !! path = Some old
    /\ files w' !! (path +:+ ".tmp") = None
    /\ files w' !! (path +:+ ".backup") = None.
Proof.
  intros Hold Hnb Hplan. pose proof (tmp_ne_path path); pose proof (backup_ne_path path);
  pose proof (tmp_ne_backup path).
  unfold writeShowsFile, async, tryCatch. fs_unfold.
  destruct (fs !! (path +:+ ".tmp")) as [t |] eqn:Ht.
  all: cbn [In] in Hplan; intuition subst.
  all: fs_run.
  all: eexists; eexists; (split; [reflexivity |]); cbn [files]; repeat fs_lookup; auto.
Qed.

End AtomicWrite.

Section Partition.
Variables (tz : TimeZone) (today : Z).

Lemma partition_fold (shows : list Show) (acc : list Show * list Show) :
  fold_left (partitionStep tz today) shows acc
  = (fst acc ++ toArchive tz today shows, snd acc ++ toKeep tz today shows).
Proof.
  revert acc. induction shows as [| show shows IH]; intros [a k].
  - simpl. now rewrite !app_nil_r.
  - simpl. rewrite IH. unfold partitionStep. simpl.
    destruct (shouldArchive (shouldArchiveShow tz (Show.date show) today)); simpl;
      now rewrite <- ?app_assoc.
Qed.

Lemma partitionUpcoming_spec (shows : list Show) :
  partitionUpcoming tz today shows = (toArchive tz today shows, toKeep tz today shows).
Proof. unfold partitionUpcoming. now rewrite partition_fold. Qed.

Lemma partition_length (shows : list Show) :
  (List.length (toKeep tz today shows) + List.length (toArchive tz today shows)
   = List.length shows)%nat.
Proof.
  unfold toKeep, toArchive. induction shows as [| show shows IH]; simpl; [reflexivity |].
  destruct (shouldArchive (shouldArchiveShow tz (Show.date show) today)); simpl; lia.
Qed.

Lemma partition_permutation (shows : list Show) :
  Permutation (toKeep tz today shows ++ toArchive tz today shows) shows.
Proof.
  unfold toKeep, toArchive. induction shows as [| show shows IH]; simpl; [constructor |].
  destruct (shouldArchive (shouldArchiveShow tz (Show.date show) today)); simpl.
  - rewrite <- Permutation_middle. now constructor.
  - now constructor.
Qed.

Lemma toArchive_nil (shows : list Show) :
  (forall show, In show shows ->
     shouldArchive (shouldArchiveShow tz (Show.date show) today) = false) ->
  toArchive tz today shows = [] /\ toKeep tz today shows = shows.
Proof.
  unfold toArchive, toKeep. induction shows as [| show shows IH]; intros H; [now split |].
  simpl. rewrite (H show (or_introl eq_refl)). simpl.
  destruct IH as [IH1 IH2]; [intros; apply H; now right |].
  now rewrite IH1, IH2.
Qed.

Lemma toKeep_kept (shows : list Show) (show : Show) :
  In show (toKeep tz today shows) ->
  shouldArchive (shouldArchiveShow tz (Show.date show) today) = false.
Proof.
  unfold toKeep. rewrite filter_In. intros [_ H]. now apply negb_true_iff in H.
Qed.

Lemma toKeep_all (shows : list Show) :
  toArchive tz today shows = [] -> toKeep tz today shows = shows.
Proof.
  unfold toArchive, toKeep. induction shows as [| show shows IH]; [reflexivity |].
  simpl. destruct (shouldArchive (shouldArchiveShow tz (Show.date show) today)); simpl.
  - discriminate.
  - intros H. now rewrite IH.
Qed.

End Partition.

Section Run.
Variables (tz : TimeZone) (today : Z) (siteName filePath backupDir : string).

(** A run, once the partition is known: the read, then the write where
    there is one, then the result. *)
Lemma archiveShows_unfold (dryRun : bool) (w : World) (data : ShowsData) :
  files w !! filePath = Some (Json (Structured data)) ->
  archiveShows tz today siteName filePath backupDir dryRun w
  = (if isFails (hd NoFault (faults w)) then throw (EIO "readFileSync")
     else
       (if negb dryRun && (0 <? List.length (toArchive tz today (upcoming data)))%nat
        then written <- writeShowsFile filePath (archivedDocument tz today data) ;;
             dropPromise written
        else ret tt) ;;
       ret (reportOf tz today siteName filePath data))
      (snd (nextFault w)).
Proof.
  intros Hfile. unfold archiveShows, readFileSync.
  unfold bind at 1 2 3. unfold nextFault at 1. cbn [fst snd].
  destruct (isFails (hd NoFault (faults w))); [reflexivity |].
  unfold bind at 1. unfold lookupFile. cbn [files]. rewrite Hfile.
  unfold ret at 1. unfold JSON_parse, ret at 1. cbn [validateShowsStructure].
  rewrite partitionUpcoming_spec. reflexivity.
Qed.

Lemma archivedDocument_same (data : ShowsData) :
  toArchive tz today (upcoming data) = [] -> archivedDocument tz today data = data.
Proof.
  intros H. unfold archivedDocument. rewrite (toKeep_all tz today _ H), H.
  destruct data; reflexivity.
Qed.

(** A run that is a preview, or that finds nothing to archive, calls
    nothing that changes the file system. *)
Lemma archiveShows_no_write (dryRun : bool) (w : World) (data : ShowsData) :
  files w !! filePath = Some (Json (Structured data)) ->
  dryRun = true \/ toArchive tz today (upcoming data) = [] ->
  files (snd (archiveShows tz today siteName filePath backupDir dryRun w)) = files w
  /\ trace (snd (archiveShows tz today siteName filePath backupDir dryRun w)) = trace w
  /\ unhandled (snd (archiveShows tz today siteName filePath backupDir dryRun w))
     = unhandled w
  /\ fst (archiveShows tz today siteName filePath backupDir dryRun w)
     = (if isFails (hd NoFault (faults w)) then Throws (EIO "readFileSync")
        else Returns (reportOf tz today siteName filePath data)).
Proof.
  intros Hfile Hnone. rewrite (archiveShows_unfold dryRun w data Hfile).
  assert (Hcond : negb dryRun
                  && (0 <? List.length (toArchive tz today (upcoming data)))%nat = false).
  { destruct Hnone as [-> | ->]; [reflexivity | apply andb_false_r]. }
  rewrite Hcond. destruct (isFails (hd NoFault (faults w))); repeat split; reflexivity.
Qed.

(** An apply-mode run that meets no fault returns the report and leaves
    the archived document in the file. *)
Lemma archiveShows_apply_clean (w : World) (data : ShowsData) :
  files w !! filePath = Some (Json (Structured data)) ->
  faults w = [] ->
  exists w',
    archiveShows tz today siteName filePath backupDir false w
    = (Returns (reportOf tz today siteName filePath data), w')
    /\ files w' !! filePath = Some (Json (Structured (archivedDocument tz today data)))
    /\ faults w' = [] /\ unhandled w' = unhandled w.
Proof.
  intros Hfile Hplan. rewrite (archiveShows_unfold false w data Hfile).
  destruct w as [fs plan tr un]. cbn [files faults] in *. subst plan.
  cbn [hd isFails negb andb nextFault snd tl files faults trace unhandled].
  destruct (toArchive tz today (upcoming data)) as [| show rest] eqn:Harch.
  - eexists. split; [reflexivity |]. cbn [files faults unhandled].
    rewrite (archivedDocument_same data Harch). auto.
  - cbn [List.length Nat.ltb Nat.leb]. unfold bind.
    rewrite (writeShowsFile_succeeds filePath _ fs tr un _ Hfile).
    eexists. split; [reflexivity |]. cbn [files faults unhandled].
    pose proof (backup_ne_path filePath).
    rewrite lookup_delete_ne by assumption.
    rewrite lookup_insert_eq. auto.
Qed.

Lemma archivedDocument_permutation (data : ShowsData) :
  Permutation
    (upcoming (archivedDocument tz today data) ++ past (archivedDocument tz today data))
    (upcoming data ++ past data).
Proof.
  cbn [archivedDocument upcoming past]. rewrite app_assoc. apply Permutation_app_tail.
  rewrite <- (partition_permutation tz today (upcoming data)) at 3.
  apply Permutation_app_head. symmetry. apply Permutation_rev.
Qed.

(** C2. An apply-mode run on a valid document conserves the shows: the
    file then holds a document whose upcoming shows are the kept ones,
    whose past shows are the archived ones put before the previous past
    shows, and [upcoming] and [past] together hold exactly the shows they
    held, as many as before. *)
Theorem conservation_of_shows (w : World) (data : ShowsData) :
  files w !! filePath = Some (Json (Structured data)) ->
  faults w = [] ->
  exists result w' data',
    archiveShows tz today siteName filePath backupDir false w = (Returns result, w')
    /\ files w' !! filePath = Some (Json (Structured data'))
    /\ upcoming data' = toKeep tz today (upcoming data)
    /\ (exists moved,
          Permutation moved (toArchive tz today (upcoming data))
          /\ past data' = moved ++ past data)
    /\ (List.length (upcoming data') + List.length (past data')
        = List.length (upcoming data) + List.length (past data))%nat
    /\ Permutation (upcoming data' ++ past data') (upcoming data ++ past data).
Proof.
  intros Hfile Hplan.
  destruct (archiveShows_apply_clean w data Hfile Hplan) as (w' & Hrun & Hnew & _).
  exists (reportOf tz today siteName filePath data), w', (archivedDocument tz today data).
  split; [exact Hrun |]. split; [exact Hnew |]. split; [reflexivity |].
  cbn [archivedDocument upcoming past]. split; [| split].
  - exists (rev (toArchive tz today (upcoming data))).
    split; [symmetry; apply Permutation_rev | reflexivity].
  - rewrite length_app, length_rev.
    pose proof (partition_length tz today (upcoming data)). lia.
  - apply archivedDocument_permutation.
Qed.

(** C4. An apply-mode run with something to archive leaves in the file
    the kept shows as [upcoming], in their original order, and as [past]
    the archived shows, in the reverse of their original order, followed by
    the previous past shows. *)
Theorem order_preservation (w : World) (data : ShowsData) :
  files w !! filePath = Some (Json (Structured data)) ->
  faults w = [] ->
  toArchive tz today (upcoming data) <> [] ->
  exists result w',
    archiveShows tz today siteName filePath backupDir false w = (Returns result, w')
    /\ files w' !! filePath
       = Some (Json (Structured
            {| upcoming := toKeep tz today (upcoming data);
               past := rev (toArchive tz today (upcoming data)) ++ past data;
               settings := settings data |}))
    /\ trace w' = trace w ++ [WriteFile (filePath +:+ ".tmp");
                               CopyFile filePath (filePath +:+ ".backup");
                               Rename (filePath +:+ ".tmp") filePath;
                               Unlink (filePath +:+ ".backup")].
Proof.
  intros Hfile Hplan Hsome. rewrite (archiveShows_unfold false w data Hfile).
  destruct w as [fs plan tr un]. cbn [files faults trace] in *. subst plan.
  cbn [hd isFails negb andb nextFault snd tl files faults trace unhandled].
  destruct (toArchive tz today (upcoming data)) as [| show rest] eqn:Harch; [congruence |].
  cbn [List.length Nat.ltb Nat.leb]. unfold bind.
  rewrite (writeShowsFile_succeeds filePath _ fs tr un _ Hfile).
  eexists. eexists. split; [reflexivity |]. cbn [files trace].
  pose proof (backup_ne_path filePath).
  rewrite lookup_delete_ne by assumption.
  rewrite lookup_insert_eq. unfold archivedDocument, JSON_stringify. rewrite Harch. auto.
Qed.

(** Where the pass-through of settings and shows does hold: no [.backup]
    file lies beside the target when the run starts, and a call into the
    file system that fails changes nothing.  Then, whatever the mode and
    whichever calls fail, the document in the file after a run has the
    settings it had, and its shows are the records it held. *)
Lemma settings_and_shows_pass_through (dryRun : bool) (w : World) (data : ShowsData) :
  files w !! filePath = Some (Json (Structured data)) ->
  files w !! (filePath +:+ ".backup") = None ->
  exists data',
    files (snd (archiveShows tz today siteName filePath backupDir dryRun w)) !! filePath
    = Some (Json (Structured data'))
    /\ settings data' = settings data
    /\ (forall show,
          In show (upcoming data' ++ past data') <-> In show (upcoming data ++ past data)).
Proof.
  intros Hfile Hnb. rewrite (archiveShows_unfold dryRun w data Hfile).
  assert (Hsame : exists data',
             files (snd (nextFault w)) !! filePath = Some (Json (Structured data'))
             /\ settings data' = settings data
             /\ (forall show, In show (upcoming data' ++ past data')
                               <-> In show (upcoming data ++ past data))).
  { exists data. cbn [nextFault snd files]. split; [exact Hfile |]. split; [reflexivity |].
    intros show. reflexivity. }
  destruct (isFails (hd NoFault (faults w))); [exact Hsame |].
  destruct (negb dryRun && (0 <? List.length (toArchive tz today (upcoming data)))%nat);
    [| exact Hsame].
  destruct (writeShowsFile_old_or_new filePath (archivedDocument tz today data)
              (snd (nextFault w)) (Json (Structured data)))
    as (p & w' & Hrun & Hfiles); [exact Hfile | exact Hnb |].
  unfold bind. rewrite Hrun.
  assert (Hdrop : files (snd (dropPromise p w')) = files w') by (destruct p; reflexivity).
  destruct (dropPromise p w') as [[[] | e] w''] eqn:Hd; cbn [snd] in *;
    try (destruct p; discriminate).
  unfold ret. cbn [snd]. rewrite Hdrop.
  destruct Hfiles as [Hold | Hnew].
  - exists data. split; [exact Hold |]. split; [reflexivity |]. intros show. reflexivity.
  - exists (archivedDocument tz today data). split; [exact Hnew |].
    split; [reflexivity |]. intros show.
    pose proof (archivedDocument_permutation data) as Hperm.
    split; intros Hin.
    + exact (Permutation_in _ Hperm Hin).
    + exact (Permutation_in _ (Permutation_sym Hperm) Hin).
Qed.

(** C8. A run that archives more than ten shows warns about it, and in
    apply mode writes all the same: the report counts every archived show
    and the file holds the archived document. *)
Theorem warnings_do_not_block_the_write (w : World) (data : ShowsData) :
  files w !! filePath = Some (Json (Structured data)) ->
  faults w = [] ->
  (10 < List.length (toArchive tz today (upcoming data)))%nat ->
  exists result w',
    archiveShows tz today siteName filePath backupDir false w = (Returns result, w')
    /\ In (warnMany (List.length (toArchive tz today (upcoming data)))) (warnings result)
    /\ archived result = List.length (toArchive tz today (upcoming data))
    /\ files w' !! filePath
       = Some (Json (Structured
            {| upcoming := toKeep tz today (upcoming data);
               past := rev (toArchive tz today (upcoming data)) ++ past data;
               settings := settings data |})).
Proof.
  intros Hfile Hplan Hmany.
  destruct (archiveShows_apply_clean w data Hfile Hplan) as (w' & Hrun & Hnew & _).
  exists (reportOf tz today siteName filePath data), w'.
  split; [exact Hrun |]. split; [| split; [reflexivity | exact Hnew]].
  unfold reportOf. cbn [withWarnings warnings]. unfold performSanityChecks.
  cbn [createResult archived remaining archivedShows].
  apply in_or_app. right. apply in_or_app. left.
  apply Nat.ltb_lt in Hmany. rewrite Hmany. now left.
Qed.

(** An apply-mode run whose first read works returns its report, whatever
    becomes of the write: [archiveShows] throws nothing that
    [writeShowsFile] threw. *)
Lemma archiveShows_returns_after_read (w : World) (data : ShowsData) :
  files w !! filePath = Some (Json (Structured data)) ->
  isFails (hd NoFault (faults w)) = false ->
  exists w',
    archiveShows tz today siteName filePath backupDir false w
    = (Returns (reportOf tz today siteName filePath data), w').
Proof.
  intros Hfile Hread. rewrite (archiveShows_unfold false w data Hfile), Hread.
  destruct (negb false && (0 <? List.length (toArchive tz today (upcoming data)))%nat).
  - unfold bind, writeShowsFile, async.
    destruct (tryCatch _ _ _) as [[a | e] w1]; cbn [dropPromise];
      eexists; reflexivity.
  - eexists. reflexivity.
Qed.

(** C10. The decision for a show reads its date string only: two lists of
    shows with the same date strings, whatever their other fields, get the
    same decisions, show by show, and are partitioned at the same places,
    the dates of either part being those the decision engine picks from the
    list of date strings. *)
Theorem decision_reads_the_date_only (shows1 shows2 : list Show) :
  map Show.date shows1 = map Show.date shows2 ->
  Forall2 (fun show1 show2 =>
             shouldArchiveShow tz (Show.date show1) today
             = shouldArchiveShow tz (Show.date show2) today) shows1 shows2
  /\ map Show.date (fst (partitionUpcoming tz today shows1))
     = List.filter (fun d => shouldArchive (shouldArchiveShow tz d today))
         (map Show.date shows2)
  /\ map Show.date (snd (partitionUpcoming tz today shows1))
     = List.filter (fun d => negb (shouldArchive (shouldArchiveShow tz d today)))
         (map Show.date shows2)
  /\ map Show.date (fst (partitionUpcoming tz today shows1))
     = map Show.date (fst (partitionUpcoming tz today shows2))
  /\ map Show.date (snd (partitionUpcoming tz today shows1))
     = map Show.date (snd (partitionUpcoming tz today shows2)).
Proof.
  intros Hdates.
  assert (Hdec : Forall2 (fun show1 show2 =>
                    shouldArchiveShow tz (Show.date show1) today
                    = shouldArchiveShow tz (Show.date show2) today) shows1 shows2).
  { revert shows2 Hdates. induction shows1 as [| s1 rest IH]; intros [| s2 rest2] H;
      try discriminate; [constructor |].
    injection H as Hd Hrest. constructor; [now rewrite Hd | now apply IH]. }
  assert (Hdates_of : forall shows,
             map Show.date (toArchive tz today shows)
             = List.filter (fun d => shouldArchive (shouldArchiveShow tz d today))
                 (map Show.date shows)
             /\ map Show.date (toKeep tz today shows)
                = List.filter (fun d => negb (shouldArchive (shouldArchiveShow tz d today)))
                    (map Show.date shows)).
  { unfold toArchive, toKeep. induction shows as [| s rest [IHa IHk]]; [now split |].
    simpl. destruct (shouldArchive (shouldArchiveShow tz (Show.date s) today)); simpl;
      now rewrite IHa, IHk. }
  rewrite !partitionUpcoming_spec. cbn [fst snd].
  destruct (Hdates_of shows1) as [Ha1 Hk1]. destruct (Hdates_of shows2) as [Ha2 Hk2].
  rewrite Ha1, Hk1, Ha2, Hk2, Hdates. auto.
Qed.

End Run.

Section Idempotence.
Variables (tz : TimeZone) (siteName filePath backupDir : string).

(** C5. An apply-mode run on a document none of whose upcoming shows the
    decision engine archives calls nothing that changes the file system and
    leaves every file as it was.  So a second apply-mode run, on the same
    reference day, after a first one that met no fault: it reports zero
    archived shows and writes nothing. *)
Theorem noop_run_writes_nothing (today : Z) (w : World) (data : ShowsData) :
  files w !! filePath = Some (Json (Structured data)) ->
  ((forall show, In show (upcoming data) ->
      shouldArchive (shouldArchiveShow tz (Show.date show) today) = false) ->
   files (snd (archiveShows tz today siteName filePath backupDir false w)) = files w
   /\ trace (snd (archiveShows tz today siteName filePath backupDir false w)) = trace w
   /\ (forall result,
         fst (archiveShows tz today siteName filePath backupDir false w) = Returns result ->
         archived result = 0%nat))
  /\ (faults w = [] ->
      forall later, setHours0 tz later = setHours0 tz today ->
      exists first w1 second w2,
        archiveShows tz today siteName filePath backupDir false w = (Returns first, w1)
        /\ archiveShows tz later siteName filePath backupDir false w1 = (Returns second, w2)
        /\ archived second = 0%nat
        /\ trace w2 = trace w1
        /\ files w2 = files w1).
Proof.
  intros Hfile. split.
  - intros Hkeep. destruct (toArchive_nil tz today (upcoming data) Hkeep) as [Hnil _].
    destruct (archiveShows_no_write tz today siteName filePath backupDir false w data
                Hfile (or_intror Hnil)) as (Hf & Ht & _ & Hr).
    split; [exact Hf |]. split; [exact Ht |].
    intros result Hres. rewrite Hr in Hres.
    destruct (isFails (hd NoFault (faults w))); [discriminate |].
    injection Hres as <-. unfold reportOf. cbn [withWarnings archived createResult].
    now rewrite Hnil.
  - intros Hplan later Hday.
    destruct (archiveShows_apply_clean tz today siteName filePath backupDir w data
                Hfile Hplan) as (w1 & Hrun1 & Hfile1 & Hplan1 & _).
    assert (Hnil : toArchive tz later (upcoming (archivedDocument tz today data)) = []).
    { apply toArchive_nil. cbn [archivedDocument upcoming]. intros show Hin.
      rewrite (decision_same_day tz (Show.date show) later today Hday).
      exact (toKeep_kept tz today _ show Hin). }
    destruct (archiveShows_no_write tz later siteName filePath backupDir false w1
                (archivedDocument tz today data) Hfile1 (or_intror Hnil))
      as (Hf & Ht & _ & Hr).
    rewrite Hplan1 in Hr. cbn [hd isFails] in Hr.
    destruct (archiveShows tz later siteName filePath backupDir false w1)
      as [out2 w2] eqn:Hrun2.
    cbn [fst snd] in *. subst out2.
    exists (reportOf tz today siteName filePath data), w1,
      (reportOf tz later siteName filePath (archivedDocument tz today data)), w2.
    split; [exact Hrun1 |]. split; [exact Hrun2 |].
    split; [| split; assumption].
    unfold reportOf. cbn [withWarnings archived createResult]. now rewrite Hnil.
Qed.

End Idempotence.

(** C6. The settings and the shows do not pass through every run.  A run
    in apply mode on a file beside which an interrupted run left its
    [.backup] copy, and whose write of the temporary file fails: the catch
    block of [writeShowsFile] copies that old [.backup] over the target.
    The run returns its report, one show archived and no error; the file
    then holds the older document, with other settings and without the
    shows it held. *)
Theorem stale_backup_overwrites_settings_and_shows :
  exists result w',
    archiveShows Amsterdam2025 dec6 mainSite "shows.json" "backups" false
      (worldWithOlderBackup [NoFault; Fails]) = (Returns result, w')
    /\ archived result = 1%nat
    /\ result_errors result = []
    /\ unhandled w' = [EIO "writeFileSync"]
    /\ files (worldWithOlderBackup [NoFault; Fails]) !! "shows.json"
       = Some (Json (Structured threeShows))
    /\ files w' !! "shows.json" = Some (Json (Structured olderDocument))
    /\ files w' !! "shows.json.backup" = None
    /\ settings olderDocument <> settings threeShows
    /\ In (sampleShow "Dec 11, 2025" "Tivoli") (upcoming threeShows ++ past threeShows)
    /\ ~ In (sampleShow "Dec 11, 2025" "Tivoli")
           (upcoming olderDocument ++ past olderDocument).
Proof.
  eexists. eexists. split; [vm_compute; reflexivity |].
  repeat split; try reflexivity.
  - discriminate.
  - cbn. tauto.
  - cbn. intros [Hshow | []]. discriminate Hshow.
Qed.

(** C7. A run in apply mode whose rename fails: [writeShowsFile] restores
    the file and rejects its promise, but [archiveShows] does not wait for
    that promise; it returns its report, with one show archived and no
    error, and the rejection is left unhandled. *)
Theorem write_failure_is_not_surfaced :
  exists result w',
    archiveShows Amsterdam2025 dec6 "The Dutch Queen (Full Band)" "shows.json" "backups"
      false (worldWith threeShows [NoFault; NoFault; NoFault; NoFault; Fails])
    = (Returns result, w')
    /\ archived result = 1%nat
    /\ result_errors result = []
    /\ unhandled w' = [EIO "renameSync"]
    /\ files w' !! "shows.json" = Some (Json (Structured threeShows))
    /\ files w' !! "shows.json.tmp" = None
    /\ files w' !! "shows.json.backup" = None.
Proof.
  eexists. eexists. split; [vm_compute; reflexivity |].
  repeat split; reflexivity.
Qed.

(* ===================================================================== *)
(** ** The theorems at the sample data *)
(* ===================================================================== *)

Lemma archive_iff_strictly_before_witness :
  (shouldArchive (shouldArchiveShow Amsterdam2025 "Dec 4, 2025" dec6) = true
     <-> setHours0 Amsterdam2025 dec4_midnight < setHours0 Amsterdam2025 dec6)
  /\ (setHours0 Amsterdam2025 dec4_midnight = setHours0 Amsterdam2025 dec6 ->
      shouldArchive (shouldArchiveShow Amsterdam2025 "Dec 4, 2025" dec6) = false)
  /\ (setHours0 Amsterdam2025 dec6 < setHours0 Amsterdam2025 dec4_midnight ->
      shouldArchive (shouldArchiveShow Amsterdam2025 "Dec 4, 2025" dec6) = false).
Proof.
  apply (archive_iff_strictly_before Amsterdam2025 "Dec 4, 2025" dec6 dec4_midnight);
    vm_compute; reflexivity.
Defined.

Lemma conservation_of_shows_witness :
  exists result w' data',
    archiveShows Amsterdam2025 dec6 mainSite "shows.json" "backups" false
      (worldWith threeShows []) = (Returns result, w')
    /\ files w' !! "shows.json" = Some (Json (Structured data'))
    /\ upcoming data' = toKeep Amsterdam2025 dec6 (upcoming threeShows)
    /\ (exists moved,
          Permutation moved (toArchive Amsterdam2025 dec6 (upcoming threeShows))
          /\ past data' = moved ++ past threeShows)
    /\ (List.length (upcoming data') + List.length (past data')
        = List.length (upcoming threeShows) + List.length (past threeShows))%nat
    /\ Permutation (upcoming data' ++ past data') (upcoming threeShows ++ past threeShows).
Proof.
  apply (conservation_of_shows Amsterdam2025 dec6 mainSite "shows.json" "backups"
           (worldWith threeShows []) threeShows); reflexivity.
Defined.

Lemma order_preservation_witness :
  exists result w',
    archiveShows Amsterdam2025 dec6 mainSite "shows.json" "backups" false
      (worldWith threeShows []) = (Returns result, w')
    /\ files w' !! "shows.json"
       = Some (Json (Structured
            {| upcoming := toKeep Amsterdam2025 dec6 (upcoming threeShows);
               past := rev (toArchive Amsterdam2025 dec6 (upcoming threeShows))
                       ++ past threeShows;
               settings := settings threeShows |}))
    /\ trace w' = trace (worldWith threeShows [])
                  ++ [WriteFile ("shows.json" +:+ ".tmp");
                      CopyFile "shows.json" ("shows.json" +:+ ".backup");
                      Rename ("shows.json" +:+ ".tmp") "shows.json";
                      Unlink ("shows.json" +:+ ".backup")].
Proof.
  apply (order_preservation Amsterdam2025 dec6 mainSite "shows.json" "backups"
           (worldWith threeShows []) threeShows); [reflexivity | reflexivity |].
  intros H. vm_compute in H. discriminate H.
Defined.

Lemma noop_run_writes_nothing_witness :
  (files (snd (archiveShows Amsterdam2025 dec6 mainSite "shows.json" "backups" false
                 (worldWith nothingToArchive [])))
   = files (worldWith nothingToArchive [])
   /\ trace (snd (archiveShows Amsterdam2025 dec6 mainSite "shows.json" "backups" false
                    (worldWith nothingToArchive [])))
      = trace (worldWith nothingToArchive [])
   /\ (forall result,
         fst (archiveShows Amsterdam2025 dec6 mainSite "shows.json" "backups" false
                (worldWith nothingToArchive [])) = Returns result ->
         archived result = 0%nat))
  /\ (exists first w1 second w2,
        archiveShows Amsterdam2025 dec6 mainSite "shows.json" "backups" false
          (worldWith threeShows []) = (Returns first, w1)
        /\ archiveShows Amsterdam2025 dec6_later mainSite "shows.json" "backups" false w1
           = (Returns second, w2)
        /\ archived second = 0%nat
        /\ trace w2 = trace w1
        /\ files w2 = files w1).
Proof.
  split.
  - apply (noop_run_writes_nothing Amsterdam2025 mainSite "shows.json" "backups" dec6
             (worldWith nothingToArchive []) nothingToArchive eq_refl).
    intros show Hin. cbn [nothingToArchive upcoming In] in Hin.
    destruct Hin as [<- | [<- | []]]; vm_compute; reflexivity.
  - apply (noop_run_writes_nothing Amsterdam2025 mainSite "shows.json" "backups" dec6
             (worldWith threeShows []) threeShows eq_refl);
      [reflexivity | vm_compute; reflexivity].
Defined.

Lemma settings_and_shows_pass_through_witness :
  exists data',
    files (snd (archiveShows Amsterdam2025 dec6 mainSite "shows.json" "backups" false
                  (worldWith threeShows [NoFault; NoFault; NoFault; NoFault; NoFault; Fails])))
      !! "shows.json" = Some (Json (Structured data'))
    /\ settings data' = settings threeShows
    /\ (forall show,
          In show (upcoming data' ++ past data')
          <-> In show (upcoming threeShows ++ past threeShows)).
Proof.
  apply (settings_and_shows_pass_through Amsterdam2025 dec6 mainSite "shows.json" "backups"
           false (worldWith threeShows [NoFault; NoFault; NoFault; NoFault; NoFault; Fails])
           threeShows); reflexivity.
Defined.

Lemma warnings_do_not_block_the_write_witness :
  List.length (upcoming fifteenShows) = 15%nat
  /\ List.length (toArchive Amsterdam2025 dec6 (upcoming fifteenShows)) = 12%nat
  /\ exists result w',
      archiveShows Amsterdam2025 dec6 mainSite "shows.json" "backups" false
        (worldWith fifteenShows []) = (Returns result, w')
      /\ In (warnMany (List.length (toArchive Amsterdam2025 dec6 (upcoming fifteenShows))))
            (warnings result)
      /\ archived result
         = List.length (toArchive Amsterdam2025 dec6 (upcoming fifteenShows))
      /\ files w' !! "shows.json"
         = Some (Json (Structured
              {| upcoming := toKeep Amsterdam2025 dec6 (upcoming fifteenShows);
                 past := rev (toArchive Amsterdam2025 dec6 (upcoming fifteenShows))
                         ++ past fifteenShows;
                 settings := settings fifteenShows |})).
Proof.
  split; [reflexivity |]. split; [vm_compute; reflexivity |].
  apply (warnings_do_not_block_the_write Amsterdam2025 dec6 mainSite "shows.json" "backups"
           (worldWith fifteenShows []) fifteenShows); [reflexivity | reflexivity |].
  apply Nat.ltb_lt. vm_compute. reflexivity.
Defined.

Lemma decision_reads_the_date_only_witness :
  Forall2 (fun show1 show2 =>
             shouldArchiveShow Amsterdam2025 (Show.date show1) dec6
             = shouldArchiveShow Amsterdam2025 (Show.date show2) dec6)
    [sampleShow "Dec 4, 2025" "Paradiso"; sampleShow "Dec 11, 2025" "Tivoli"]
    [sampleShow "Dec 4, 2025" "Melkweg"; sampleShow "Dec 11, 2025" "Effenaar"]
  /\ map Show.date
       (fst (partitionUpcoming Amsterdam2025 dec6
               [sampleShow "Dec 4, 2025" "Paradiso"; sampleShow "Dec 11, 2025" "Tivoli"]))
     = List.filter (fun d => shouldArchive (shouldArchiveShow Amsterdam2025 d dec6))
         (map Show.date
            [sampleShow "Dec 4, 2025" "Melkweg"; sampleShow "Dec 11, 2025" "Effenaar"])
  /\ map Show.date
       (snd (partitionUpcoming Amsterdam2025 dec6
               [sampleShow "Dec 4, 2025" "Paradiso"; sampleShow "Dec 11, 2025" "Tivoli"]))
     = List.filter (fun d => negb (shouldArchive (shouldArchiveShow Amsterdam2025 d dec6)))
         (map Show.date
            [sampleShow "Dec 4, 2025" "Melkweg"; sampleShow "Dec 11, 2025" "Effenaar"])
  /\ map Show.date
       (fst (partitionUpcoming Amsterdam2025 dec6
               [sampleShow "Dec 4, 2025" "Paradiso"; sampleShow "Dec 11, 2025" "Tivoli"]))
     = map Show.date
         (fst (partitionUpcoming Amsterdam2025 dec6
                 [sampleShow "Dec 4, 2025" "Melkweg"; sampleShow "Dec 11, 2025" "Effenaar"]))
  /\ map Show.date
       (snd (partitionUpcoming Amsterdam2025 dec6
               [sampleShow "Dec 4, 2025" "Paradiso"; sampleShow "Dec 11, 2025" "Tivoli"]))
     = map Show.date
         (snd (partitionUpcoming Amsterdam2025 dec6
                 [sampleShow "Dec 4, 2025" "Melkweg"; sampleShow "Dec 11, 2025" "Effenaar"])).
Proof.
  apply (decision_reads_the_date_only Amsterdam2025 dec6). reflexivity.
Defined.

(* ===================================================================== *)
(** ** More on the decision and on the result of a run *)
(* ===================================================================== *)

Section EngineMore.
Variable tz : TimeZone.

Lemma archived_inv (s : string) (ref : Z) :
  shouldArchive (shouldArchiveShow tz s ref) = true ->
  exists parsed,
    success (parseShowDate tz s) = true
    /\ date (parseShowDate tz s) = Some parsed
    /\ setHours0 tz parsed < setHours0 tz ref
    /\ daysAgo (shouldArchiveShow tz s ref)
       = floorDiv (setHours0 tz ref - setHours0 tz parsed) msPerDay.
Proof.
  unfold shouldArchiveShow.
  destruct (success (parseShowDate tz s)); [| discriminate].
  destruct (date (parseShowDate tz s)) as [parsed |]; [| discriminate].
  destruct (Z.ltb_spec (setHours0 tz parsed) (setHours0 tz ref)) as [Hlt | Hge].
  - intros _. exists parsed. auto.
  - destruct (_ =? _); discriminate.
Qed.

(** X1. For a date that parses, [daysAgo] is the number of whole 24-hour
    days between the two midnights, rounded down: negative for a show after
    the reference day, zero on it, never negative before it, and at least
    one as soon as the midnights are a full day apart. *)
Theorem daysAgo_counts_whole_days (s : string) (ref parsed : Z) :
  success (parseShowDate tz s) = true ->
  date (parseShowDate tz s) = Some parsed ->
  (setHours0 tz ref <> setHours0 tz parsed ->
     daysAgo (shouldArchiveShow tz s ref) * msPerDay
     <= setHours0 tz ref - setHours0 tz parsed
     < (daysAgo (shouldArchiveShow tz s ref) + 1) * msPerDay)
  /\ (setHours0 tz ref < setHours0 tz parsed ->
      daysAgo (shouldArchiveShow tz s ref) <= -1)
  /\ (setHours0 tz ref = setHours0 tz parsed ->
      daysAgo (shouldArchiveShow tz s ref) = 0)
  /\ (setHours0 tz parsed < setHours0 tz ref ->
      0 <= daysAgo (shouldArchiveShow tz s ref))
  /\ (msPerDay <= setHours0 tz ref - setHours0 tz parsed ->
      1 <= daysAgo (shouldArchiveShow tz s ref)).
Proof.
  intros Hs Hd. unfold shouldArchiveShow. rewrite Hs, Hd.
  pose proof msPerDay_pos as Hpos.
  set (a := setHours0 tz ref). set (b := setHours0 tz parsed).
  pose proof (Z.div_mod (a - b) msPerDay ltac:(lia)) as Hdm.
  pose proof (Z.mod_pos_bound (a - b) msPerDay Hpos) as Hmod.
  destruct (Z.ltb_spec b a) as [Hlt | Hge];
    [| destruct (Z.eqb_spec b a) as [Heq | Hne]];
    cbn [daysAgo]; unfold floorDiv; repeat split; intros; try lia; try nia.
Qed.

End EngineMore.

(** X2. Where the clocks never change, [daysAgo] is the difference of the
    two calendar days, a show before the reference day has a [daysAgo] of
    at least one, and the show is archived exactly when its calendar day is
    before the reference day. *)
Theorem daysAgo_without_clock_changes (offset : Z) (s : string) (ref parsed : Z) :
  success (parseShowDate (fixedOffset offset) s) = true ->
  date (parseShowDate (fixedOffset offset) s) = Some parsed ->
  daysAgo (shouldArchiveShow (fixedOffset offset) s ref)
  = localDay (fixedOffset offset) ref - localDay (fixedOffset offset) parsed
  /\ (shouldArchive (shouldArchiveShow (fixedOffset offset) s ref) = true
      <-> localDay (fixedOffset offset) parsed < localDay (fixedOffset offset) ref)
  /\ (shouldArchive (shouldArchiveShow (fixedOffset offset) s ref) = true ->
      1 <= daysAgo (shouldArchiveShow (fixedOffset offset) s ref)).
Proof.
  intros Hs Hd.
  pose proof (daysAgo_fixedOffset offset s ref parsed Hs Hd) as Hdays.
  assert (Hiff : shouldArchive (shouldArchiveShow (fixedOffset offset) s ref) = true
                 <-> localDay (fixedOffset offset) parsed < localDay (fixedOffset offset) ref).
  { unfold shouldArchiveShow. rewrite Hs, Hd.
    unfold setHours0, localDay, MakeDate. cbn [fixedOffset LocalTime UTC].
    set (a := Day (ref + offset)). set (b := Day (parsed + offset)).
    pose proof msPerDay_pos.
    destruct (Z.ltb_spec (b * msPerDay + 0 - offset) (a * msPerDay + 0 - offset));
      [| destruct (Z.eqb_spec (b * msPerDay + 0 - offset) (a * msPerDay + 0 - offset))];
      cbn [shouldArchive]; split; intros; try reflexivity; try discriminate; nia. }
  split; [exact Hdays |]. split; [exact Hiff |].
  intros Harch. apply Hiff in Harch. lia.
Qed.

(** X3. Where the clocks never change, time only moves shows towards the
    archive: a show that is archived at one reference date is archived at
    every later one. *)
Theorem archived_stays_archived (offset : Z) (s : string) (ref later : Z) :
  ref <= later ->
  shouldArchive (shouldArchiveShow (fixedOffset offset) s ref) = true ->
  shouldArchive (shouldArchiveShow (fixedOffset offset) s later) = true.
Proof.
  intros Hle Harch.
  destruct (archived_inv (fixedOffset offset) s ref Harch) as (parsed & Hs & Hd & Hlt & _).
  assert (Hmono : setHours0 (fixedOffset offset) ref <= setHours0 (fixedOffset offset) later).
  { unfold setHours0, MakeDate, Day, floorDiv. cbn [fixedOffset LocalTime UTC].
    pose proof (Z.div_le_mono (ref + offset) (later + offset) msPerDay msPerDay_pos).
    pose proof msPerDay_pos. nia. }
  unfold shouldArchiveShow. rewrite Hs, Hd.
  destruct (Z.ltb_spec (setHours0 (fixedOffset offset) parsed)
              (setHours0 (fixedOffset offset) later)); [reflexivity | lia].
Qed.

Section RunMore.
Variables (tz : TimeZone) (today : Z) (siteName filePath backupDir : string).

Lemma async_returns {A} (body : IO A) (w : World) :
  exists p w', async body w = (Returns p, w')
               /\ match p with
                  | Fulfilled a => body w = (Returns a, w')
                  | Rejected e => body w = (Throws e, w')
                  end.
Proof.
  unfold async. destruct (body w) as [[a | e] w']; eexists; eexists; split; reflexivity.
Qed.

(** What a run makes of a structured document, in either mode and under
    any plan of faults: the read fails, or the report is returned. *)
Lemma archiveShows_outcome (dryRun : bool) (w : World) (data : ShowsData) :
  files w !! filePath = Some (Json (Structured data)) ->
  fst (archiveShows tz today siteName filePath backupDir dryRun w)
  = (if isFails (hd NoFault (faults w)) then Throws (EIO "readFileSync")
     else Returns (reportOf tz today siteName filePath data)).
Proof.
  intros Hfile. rewrite (archiveShows_unfold tz today siteName filePath backupDir dryRun w
                           data Hfile).
  destruct (isFails (hd NoFault (faults w))); [reflexivity |].
  destruct (negb dryRun && _); [| reflexivity].
  unfold bind.
  destruct (async_returns (tryCatch (writeShowsFile_try filePath (archivedDocument tz today data))
                             (writeShowsFile_catch filePath)) (snd (nextFault w)))
    as (p & w' & Hrun & _).
  unfold writeShowsFile. rewrite Hrun. destruct p; reflexivity.
Qed.

Lemma archived_not_future (shows : list Show) :
  Forall (fun show => 0 <= daysAgo (shouldArchiveShow tz (Show.date show) today))
    (toArchive tz today shows).
Proof.
  apply List.Forall_forall. intros show Hin. unfold toArchive in Hin.
  apply filter_In in Hin. destruct Hin as [_ Harch].
  destruct (archived_inv tz _ _ Harch) as (parsed & _ & _ & Hlt & ->).
  unfold floorDiv. apply Z.div_pos; [lia | reflexivity].
Qed.

(** X4. No show a run archives has a negative [daysAgo]: the check for
    future shows among the archived ones never fires on the result of a
    run, and the warnings are those of the other three checks, in order. *)
Theorem archived_shows_are_never_future (dryRun : bool) (w w' : World)
    (data : ShowsData) (result : ArchiveResult) :
  files w !! filePath = Some (Json (Structured data)) ->
  archiveShows tz today siteName filePath backupDir dryRun w = (Returns result, w') ->
  Forall (fun show => 0 <= ArchivedShow.daysAgo show) (archivedShows result)
  /\ warnings result
     = (if (remaining result =? 0)%nat && (0 <? archived result)%nat then [warnAll] else [])
       ++ (if (10 <? archived result)%nat then [warnMany (archived result)] else [])
       ++ map warnToday
            (List.filter (fun show => ArchivedShow.daysAgo show =? 0) (archivedShows result)).
Proof.
  intros Hfile Hrun.
  pose proof (archiveShows_outcome dryRun w data Hfile) as Hout.
  rewrite Hrun in Hout. cbn [fst] in Hout.
  destruct (isFails (hd NoFault (faults w))); [discriminate |].
  injection Hout as ->.
  unfold reportOf. cbn [withWarnings warnings archivedShows archived remaining].
  unfold performSanityChecks.
  cbn [createResult archivedShows archived remaining].
  assert (Hall : Forall (fun show => 0 <= ArchivedShow.daysAgo show)
                   (map (fun show =>
                           {| ArchivedShow.date := Show.date show;
                              ArchivedShow.venue := Show.venue show;
                              ArchivedShow.city := Show.city show;
                              ArchivedShow.daysAgo :=
                                daysAgo (shouldArchiveShow tz (Show.date show) today) |})
                        (toArchive tz today (upcoming data)))).
  { apply List.Forall_map. cbn [ArchivedShow.daysAgo]. apply archived_not_future. }
  split; [exact Hall |].
  f_equal. f_equal.
  replace (List.filter (fun show => ArchivedShow.daysAgo show <? 0) _) with (@nil ArchivedShow);
    [reflexivity |].
  symmetry. induction Hall as [| show rest Hshow _ IH]; [reflexivity |].
  cbn [List.filter]. destruct (Z.ltb_spec (ArchivedShow.daysAgo show) 0); [lia | exact IH].
Qed.

(** X5. The numbers of a result add up: the archived and the remaining
    shows are the original upcoming ones, the total of past shows is the
    original one plus the archived ones, and the archived shows are listed
    one by one, in the order they had in [upcoming], with the [daysAgo] of
    the decision. *)
Theorem result_counts_add_up (dryRun : bool) (w w' : World)
    (data : ShowsData) (result : ArchiveResult) :
  files w !! filePath = Some (Json (Structured data)) ->
  archiveShows tz today siteName filePath backupDir dryRun w = (Returns result, w') ->
  originalUpcoming result = List.length (upcoming data)
  /\ originalPast result = List.length (past data)
  /\ (archived result + remaining result = originalUpcoming result)%nat
  /\ (totalPast result = originalPast result + archived result)%nat
  /\ List.length (archivedShows result) = archived result
  /\ map ArchivedShow.date (archivedShows result)
     = map Show.date (toArchive tz today (upcoming data))
  /\ map ArchivedShow.daysAgo (archivedShows result)
     = map (fun show => daysAgo (shouldArchiveShow tz (Show.date show) today))
         (toArchive tz today (upcoming data))
  /\ result_errors result = [].
Proof.
  intros Hfile Hrun.
  pose proof (archiveShows_outcome dryRun w data Hfile) as Hout.
  rewrite Hrun in Hout. cbn [fst] in Hout.
  destruct (isFails (hd NoFault (faults w))); [discriminate |].
  injection Hout as ->.
  unfold reportOf.
  cbn [withWarnings createResult originalUpcoming originalPast archived remaining
         totalPast archivedShows result_errors].
  pose proof (partition_length tz today (upcoming data)).
  rewrite length_map, !map_map. cbn [ArchivedShow.date ArchivedShow.daysAgo].
  repeat split; try reflexivity; lia.
Qed.

(** X6. A preview changes nothing, whatever the file holds and whatever
    the calls into the file system do: after a run with [dryRun] every file
    is as it was, no changing call was made and no promise was dropped. *)
Theorem preview_changes_nothing (w : World) :
  files (snd (archiveShows tz today siteName filePath backupDir true w)) = files w
  /\ trace (snd (archiveShows tz today siteName filePath backupDir true w)) = trace w
  /\ unhandled (snd (archiveShows tz today siteName filePath backupDir true w))
     = unhandled w.
Proof.
  assert (Hworld : snd (archiveShows tz today siteName filePath backupDir true w)
                   = snd (nextFault w)).
  { unfold archiveShows, readFileSync, bind, lookupFile, JSON_parse, ret, throw.
    cbn [nextFault fst snd files].
    destruct (isFails (hd NoFault (faults w))); [reflexivity |].
    cbn [files]. destruct (files w !! filePath) as [[[data | why] |] |]; try reflexivity.
    cbn [validateShowsStructure].
    destruct (partitionUpcoming tz today (upcoming data)) as [toArchive toKeep].
    reflexivity. }
  rewrite Hworld. repeat split.
Qed.

(** X7. The preview predicts the apply run: on the same file, at the same
    time, both modes return the same result, warnings included, or fail on
    the same read. *)
Theorem preview_predicts_apply (w : World) (data : ShowsData) :
  files w !! filePath = Some (Json (Structured data)) ->
  fst (archiveShows tz today siteName filePath backupDir true w)
  = fst (archiveShows tz today siteName filePath backupDir false w).
Proof.
  intros Hfile. now rewrite !(archiveShows_outcome _ w data Hfile).
Qed.

(** X8. A file that is missing, or whose text is not JSON, stops the run
    with the matching error, in either mode, before any call that changes
    the file system: the files and the trace of calls are as they were. *)
Theorem unreadable_file_is_left_alone (dryRun : bool) (w : World) :
  isFails (hd NoFault (faults w)) = false ->
  (files w !! filePath = None ->
     fst (archiveShows tz today siteName filePath backupDir dryRun w)
     = Throws (ENOENT filePath)
     /\ files (snd (archiveShows tz today siteName filePath backupDir dryRun w)) = files w
     /\ trace (snd (archiveShows tz today siteName filePath backupDir dryRun w)) = trace w)
  /\ (files w !! filePath = Some NotJson ->
      fst (archiveShows tz today siteName filePath backupDir dryRun w)
      = Throws SyntaxError
      /\ files (snd (archiveShows tz today siteName filePath backupDir dryRun w)) = files w
      /\ trace (snd (archiveShows tz today siteName filePath backupDir dryRun w)) = trace w).
Proof.
  intros Hread.
  assert (Hrun : forall c : option FileContent,
             files w !! filePath = c ->
             match c with
             | Some (Json _) => True
             | _ =>
               archiveShows tz today siteName filePath backupDir dryRun w
               = (Throws match c with
                         | None => ENOENT filePath
                         | _ => SyntaxError
                         end,
                  snd (nextFault w))
             end).
  { intros c Hc. unfold archiveShows, readFileSync, bind, lookupFile, JSON_parse, ret, throw.
    cbn [nextFault fst snd files]. rewrite Hread. cbn [files]. rewrite Hc.
    destruct c as [[value |] |]; [exact I | reflexivity | reflexivity]. }
  split; intros H; rewrite (Hrun _ H); repeat split.
Qed.

End RunMore.

(* ===================================================================== *)
(** ** More on the atomic write *)
(* ===================================================================== *)

Section Frame.
Variable paths : list string.

Lemma keeps_ret {A} (a : A) : keepsOthers paths (ret a).
Proof. intros w k _. reflexivity. Qed.

Lemma keeps_throw {A} (e : Error) : keepsOthers paths (@throw A e).
Proof. intros w k _. reflexivity. Qed.

Lemma keeps_bind {A B} (m : IO A) (f : A -> IO B) :
  keepsOthers paths m -> (forall a, keepsOthers paths (f a)) ->
  keepsOthers paths (bind m f).
Proof.
  intros Hm Hf w k Hk. unfold bind. specialize (Hm w k Hk).
  destruct (m w) as [[a | e] w1]; cbn [snd] in *; [| exact Hm].
  rewrite (Hf a w1 k Hk). exact Hm.
Qed.

Lemma keeps_tryCatch {A} (body : IO A) (handler : Error -> IO A) :
  keepsOthers paths body -> (forall e, keepsOthers paths (handler e)) ->
  keepsOthers paths (tryCatch body handler).
Proof.
  intros Hm Hf w k Hk. unfold tryCatch. specialize (Hm w k Hk).
  destruct (body w) as [[a | e] w1]; cbn [snd] in *; [exact Hm |].
  rewrite (Hf e w1 k Hk). exact Hm.
Qed.

Lemma keeps_async {A} (body : IO A) :
  keepsOthers paths body -> keepsOthers paths (async body).
Proof.
  intros Hm w k Hk. unfold async. specialize (Hm w k Hk).
  destruct (body w) as [[a | e] w1]; exact Hm.
Qed.

Lemma keeps_dropPromise {A} (p : Promise A) : keepsOthers paths (dropPromise p).
Proof. intros w k _. destruct p; reflexivity. Qed.

Lemma keeps_existsSync (path : string) : keepsOthers paths (existsSync path).
Proof. intros w k _. reflexivity. Qed.

Lemma keeps_readFileSync (path : string) : keepsOthers paths (readFileSync path).
Proof.
  intros w k _. unfold readFileSync, bind, lookupFile, ret, throw.
  cbn [nextFault fst snd]. destruct (isFails _); [reflexivity |].
  cbn [files]. destruct (files w !! path); reflexivity.
Qed.

Lemma keeps_JSON_parse (text : FileContent) : keepsOthers paths (JSON_parse text).
Proof. intros w k _. destruct text; reflexivity. Qed.

Lemma keeps_writeFileSync (path : string) (content : FileContent) :
  In path paths -> keepsOthers paths (writeFileSync path content).
Proof.
  intros Hin w k Hk. assert (path <> k) by (intros ->; contradiction).
  unfold writeFileSync, bind, logCall, updateFiles, setFiles, throw.
  cbn [nextFault fst snd files faults]. destruct (hd NoFault (faults w));
    cbn [snd files]; rewrite ?lookup_insert_ne by assumption; reflexivity.
Qed.

Lemma keeps_copyFileSync (src dest : string) :
  In dest paths -> keepsOthers paths (copyFileSync src dest).
Proof.
  intros Hin w k Hk. assert (dest <> k) by (intros ->; contradiction).
  unfold copyFileSync, bind, logCall, updateFiles, setFiles, lookupFile, throw, ret.
  cbn [nextFault fst snd files faults]. destruct (isFails _); [reflexivity |].
  cbn [files]. destruct (files w !! src);
    cbn [snd files]; rewrite ?lookup_insert_ne by assumption; reflexivity.
Qed.

Lemma keeps_renameSync (oldPath newPath : string) :
  In oldPath paths -> In newPath paths -> keepsOthers paths (renameSync oldPath newPath).
Proof.
  intros Hold Hnew w k Hk.
  assert (oldPath <> k) by (intros ->; contradiction).
  assert (newPath <> k) by (intros ->; contradiction).
  unfold renameSync, bind, logCall, updateFiles, setFiles, lookupFile, throw, ret.
  cbn [nextFault fst snd files faults]. destruct (isFails _); [reflexivity |].
  cbn [files]. destruct (files w !! oldPath); cbn [snd files]; [| reflexivity].
  rewrite lookup_insert_ne by assumption. now rewrite lookup_delete_ne by assumption.
Qed.

Lemma keeps_unlinkSync (path : string) :
  In path paths -> keepsOthers paths (unlinkSync path).
Proof.
  intros Hin w k Hk. assert (path <> k) by (intros ->; contradiction).
  unfold unlinkSync, bind, logCall, updateFiles, setFiles, lookupFile, throw, ret.
  cbn [nextFault fst snd files faults]. destruct (isFails _); [reflexivity |].
  cbn [files]. destruct (files w !! path); cbn [snd files]; [| reflexivity].
  now rewrite lookup_delete_ne by assumption.
Qed.

End Frame.

Section Footprint.
Variables (tz : TimeZone) (today : Z) (siteName filePath backupDir : string).

Lemma writeShowsFile_keeps (data : ShowsData) :
  keepsOthers (writePaths filePath) (writeShowsFile filePath data).
Proof.
  assert (H0 : In filePath (writePaths filePath)) by (left; reflexivity).
  assert (H1 : In (filePath +:+ ".tmp") (writePaths filePath))
    by (right; left; reflexivity).
  assert (H2 : In (filePath +:+ ".backup") (writePaths filePath))
    by (right; right; left; reflexivity).
  unfold writeShowsFile. apply keeps_async. apply keeps_tryCatch.
  - unfold writeShowsFile_try.
    apply keeps_bind; [now apply keeps_writeFileSync | intros _].
    apply keeps_bind; [apply keeps_readFileSync | intros tmpContent].
    apply keeps_bind; [apply keeps_JSON_parse | intros _].
    apply keeps_bind; [apply keeps_existsSync | intros present].
    apply keeps_bind;
      [destruct present; [now apply keeps_copyFileSync | apply keeps_ret] | intros _].
    apply keeps_bind; [now apply keeps_renameSync | intros _].
    apply keeps_bind; [apply keeps_existsSync | intros kept].
    destruct kept; [now apply keeps_unlinkSync | apply keeps_ret].
  - intros err. unfold writeShowsFile_catch.
    apply keeps_bind; [apply keeps_existsSync | intros leftover].
    apply keeps_bind;
      [destruct leftover; [now apply keeps_unlinkSync | apply keeps_ret] | intros _].
    apply keeps_bind; [apply keeps_existsSync | intros kept].
    apply keeps_bind; [| intros _; apply keeps_throw].
    destruct kept; [| apply keeps_ret].
    apply keeps_bind; [now apply keeps_copyFileSync | intros _].
    now apply keeps_unlinkSync.
Qed.

(** X12. A run, in either mode and whatever fails, changes no file but the
    shows file, its [.tmp] and its [.backup]: every other path holds
    afterwards what it held before. *)
Theorem run_touches_only_its_three_paths (dryRun : bool) (w : World) (other : string) :
  other <> filePath ->
  other <> filePath +:+ ".tmp" ->
  other <> filePath +:+ ".backup" ->
  files (snd (archiveShows tz today siteName filePath backupDir dryRun w)) !! other
  = files w !! other.
Proof.
  intros H0 H1 H2.
  assert (Hk : ~ In other (writePaths filePath)).
  { intros [<- | [<- | [<- | []]]]; congruence. }
  clear H0 H1 H2. revert w other Hk. change (keepsOthers (writePaths filePath)
                               (archiveShows tz today siteName filePath backupDir dryRun)).
  unfold archiveShows.
  apply keeps_bind; [apply keeps_readFileSync | intros text].
  apply keeps_bind; [apply keeps_JSON_parse | intros parsed].
  destruct parsed as [data | why]; cbn [validateShowsStructure]; [| apply keeps_throw].
  destruct (partitionUpcoming tz today (upcoming data)) as [toArchive toKeep].
  apply keeps_bind; [| intros _; apply keeps_ret].
  destruct (negb dryRun && _); [| apply keeps_ret].
  apply keeps_bind; [apply writeShowsFile_keeps | intros written].
  apply keeps_dropPromise.
Qed.

End Footprint.

Section AtomicWriteMore.
Variables (path : string) (data : ShowsData).

(** X9. A write that meets no fault installs the document whether or not
    the target existed: the target holds the new text, no [.tmp] and no
    [.backup] file is left (one lying there from an earlier run is
    removed), every other file is as it was, and the promise is
    fulfilled. *)
Theorem clean_write_installs_the_document (w : World) :
  faults w = [] ->
  exists w',
    writeShowsFile path data w = (Returns (Fulfilled tt), w')
    /\ files w'
       = <[path := JSON_stringify data]>
           (delete (path +:+ ".tmp") (delete (path +:+ ".backup") (files w)))
    /\ faults w' = [] /\ unhandled w' = unhandled w.
Proof.
  intros Hplan. destruct w as [fs plan tr un]. cbn [files faults unhandled] in *. subst plan.
  pose proof (tmp_ne_path path); pose proof (backup_ne_path path);
  pose proof (tmp_ne_backup path).
  unfold writeShowsFile, async, tryCatch. fs_unfold. fs_explore.
  all: eexists; split; [reflexivity |]; cbn [files faults unhandled];
    split; [| split; reflexivity].
  all: map_cases.
Qed.

(** X10. On a target that exists, with no [.backup] file beside it when
    the call starts: when one step of the write fails (writing the
    temporary file, reading it back, parsing it, copying the target to
    [.backup], or the rename), the failing call changing nothing, and the
    clean-up calls work, the promise is rejected with the error of that
    step and the file system is what it was, less a temporary file. *)
Theorem failed_write_is_rolled_back (w : World) (old : FileContent) :
  files w !! path = Some old ->
  files w !! (path +:+ ".backup") = None ->
  In (faults w) [[Fails]; [Truncates]; [NoFault; Fails]; [NoFault; NoFault; Fails];
                 [NoFault; NoFault; NoFault; Fails]] ->
  exists e w',
    writeShowsFile path data w = (Returns (Rejected e), w')
    /\ files w' = delete (path +:+ ".tmp") (files w)
    /\ In (faults w, e)
         [([Fails], EIO "writeFileSync"); ([Truncates], SyntaxError);
          ([NoFault; Fails], EIO "readFileSync");
          ([NoFault; NoFault; Fails], EIO "copyFileSync");
          ([NoFault; NoFault; NoFault; Fails], EIO "renameSync")].
Proof.
  intros Hold Hnb Hplan. destruct w as [fs plan tr un]. cbn [files faults] in *.
  pose proof (tmp_ne_path path); pose proof (backup_ne_path path);
  pose proof (tmp_ne_backup path).
  unfold writeShowsFile, async, tryCatch. fs_unfold.
  cbn [In] in Hplan. intuition subst.
  all: fs_explore.
  all: eexists; eexists; split; [reflexivity |]; cbn [files]; split;
    [| cbn [In]; tauto].
  all: map_cases.
Qed.

(** X13. A [.backup] file left behind by an earlier, interrupted run is
    taken for the rollback point: if the write then fails before it has
    made its own copy, the stale file is copied over the target. *)
Theorem stale_backup_replaces_the_target (w : World) (old stale : FileContent) :
  files w !! path = Some old ->
  files w !! (path +:+ ".backup") = Some stale ->
  faults w = [Fails] ->
  exists w',
    writeShowsFile path data w = (Returns (Rejected (EIO "writeFileSync")), w')
    /\ files w' !! path = Some stale
    /\ files w' !! (path +:+ ".backup") = None.
Proof.
  intros Hold Hb Hplan. destruct w as [fs plan tr un]. cbn [files faults] in *. subst plan.
  pose proof (tmp_ne_path path); pose proof (backup_ne_path path);
  pose proof (tmp_ne_backup path).
  unfold writeShowsFile, async, tryCatch. fs_unfold. fs_explore.
  all: eexists; split; [reflexivity |]; cbn [files]; repeat fs_lookup; auto.
Qed.

(** X14. A failure to delete the [.backup] copy after the rename undoes
    the write: the new document was in place, and the clean-up copies the
    old one back over it before the promise is rejected. *)
Theorem failed_cleanup_undoes_the_write (w : World) (old : FileContent) :
  files w !! path = Some old ->
  files w !! (path +:+ ".backup") = None ->
  faults w = [NoFault; NoFault; NoFault; NoFault; Fails] ->
  exists w',
    writeShowsFile path data w = (Returns (Rejected (EIO "unlinkSync")), w')
    /\ files w' !! path = Some old
    /\ files w' !! (path +:+ ".tmp") = None
    /\ files w' !! (path +:+ ".backup") = None
    /\ In (Rename (path +:+ ".tmp") path) (trace w')
    /\ In (CopyFile (path +:+ ".backup") path) (trace w').
Proof.
  intros Hold Hb Hplan. destruct w as [fs plan tr un]. cbn [files faults] in *. subst plan.
  pose proof (tmp_ne_path path); pose proof (backup_ne_path path);
  pose proof (tmp_ne_backup path).
  unfold writeShowsFile, async, tryCatch. fs_unfold. fs_explore.
  all: eexists; split; [reflexivity |]; cbn [files trace]; repeat fs_lookup.
  all: repeat split; auto; rewrite !in_app_iff; cbn [In]; tauto.
Qed.

(** A fulfilled promise means the new document is in place and nothing is
    left beside it. *)
Lemma writeShowsFile_fulfilled (w w' : World) :
  writeShowsFile path data w = (Returns (Fulfilled tt), w') ->
  files w' !! path = Some (JSON_stringify data)
  /\ files w' !! (path +:+ ".tmp") = None
  /\ files w' !! (path +:+ ".backup") = None.
Proof.
  destruct w as [fs plan tr un].
  pose proof (tmp_ne_path path); pose proof (backup_ne_path path);
  pose proof (tmp_ne_backup path).
  unfold writeShowsFile, async, tryCatch. fs_unfold. fs_explore.
  all: try match goal with
           | |- context [writeShowsFile_catch ?p ?e ?w0] =>
             destruct (writeShowsFile_catch p e w0) as [[? | ?] ?]
           end.
  all: intros Heq; try discriminate Heq.
  all: injection Heq as <-; cbn [files]; repeat fs_lookup; auto.
Qed.

(** X11. Whatever the files are and whichever calls fail, [writeShowsFile]
    throws nothing: it returns a settled promise.  And a fulfilled promise
    can be trusted: the target then holds the new text, with no [.tmp] and
    no [.backup] file left beside it. *)
Theorem fulfilled_write_is_installed (w : World) :
  exists p w',
    writeShowsFile path data w = (Returns p, w')
    /\ (p = Fulfilled tt ->
        files w' !! path = Some (JSON_stringify data)
        /\ files w' !! (path +:+ ".tmp") = None
        /\ files w' !! (path +:+ ".backup") = None).
Proof.
  destruct (async_returns
              (tryCatch (writeShowsFile_try path data) (writeShowsFile_catch path)) w)
    as (p & w' & Hrun & _).
  exists p, w'. split; [exact Hrun |].
  intros ->. exact (writeShowsFile_fulfilled w w' Hrun).
Qed.

End AtomicWriteMore.

Section Rejections.
Variables (tz : TimeZone) (today : Z) (siteName filePath backupDir : string).

Lemma writeShowsFile_unhandled (data : ShowsData) (w : World) :
  unhandled (snd (writeShowsFile filePath data w)) = unhandled w.
Proof.
  destruct w as [fs plan tr un].
  pose proof (tmp_ne_path filePath); pose proof (backup_ne_path filePath);
  pose proof (tmp_ne_backup filePath).
  unfold writeShowsFile, async, tryCatch. fs_unfold. fs_explore.
  all: reflexivity.
Qed.

(** X15. An apply-mode run whose read works returns the same report
    whether the write succeeds or not: nothing [writeShowsFile] throws
    reaches the caller.  A failed write shows only as one more unhandled
    rejection; with no new rejection the file holds the archived
    document. *)
Theorem write_errors_never_reach_the_caller (w : World) (data : ShowsData) :
  files w !! filePath = Some (Json (Structured data)) ->
  isFails (hd NoFault (faults w)) = false ->
  exists w',
    archiveShows tz today siteName filePath backupDir false w
    = (Returns (reportOf tz today siteName filePath data), w')
    /\ (unhandled w' = unhandled w ->
        files w' !! filePath = Some (Json (Structured (archivedDocument tz today data))))
    /\ (unhandled w' <> unhandled w -> exists e, unhandled w' = unhandled w ++ [e]).
Proof.
  intros Hfile Hread.
  rewrite (archiveShows_unfold tz today siteName filePath backupDir false w data Hfile), Hread.
  cbn [negb andb].
  destruct (toArchive tz today (upcoming data)) as [| show rest] eqn:Harch.
  - cbn [List.length Nat.ltb Nat.leb]. eexists. split; [reflexivity |].
    cbn [nextFault snd files unhandled]. split.
    + intros _. now rewrite (archivedDocument_same tz today data Harch).
    + intros Hne. congruence.
  - cbn [List.length Nat.ltb Nat.leb]. unfold bind.
    pose proof (writeShowsFile_unhandled (archivedDocument tz today data) (snd (nextFault w)))
      as Hun.
    destruct (async_returns
                (tryCatch (writeShowsFile_try filePath (archivedDocument tz today data))
                   (writeShowsFile_catch filePath)) (snd (nextFault w)))
      as (p & w1 & Hrun & _).
    change (writeShowsFile filePath (archivedDocument tz today data) (snd (nextFault w))
            = (Returns p, w1)) in Hrun.
    rewrite Hrun in Hun |- *. cbn [snd] in Hun. cbn [nextFault snd unhandled] in Hun.
    destruct p as [[] | e]; cbn [dropPromise]; eexists; (split; [reflexivity |]);
      cbn [files unhandled]; rewrite Hun.
    + split; [| congruence]. intros _.
      exact (proj1 (writeShowsFile_fulfilled filePath _ _ _ Hrun)).
    + split.
      * intros Habs. exfalso. apply (f_equal (@List.length Error)) in Habs.
        rewrite length_app in Habs. cbn [List.length] in Habs. lia.
      * intros _. eexists; reflexivity.
Qed.

End Rejections.

(* ===================================================================== *)
(** ** The structure check *)
(* ===================================================================== *)

Lemma checkFields_complete (show : JSONValue) :
  Decoded.checkFields Decoded.requiredFields show = Some None <-> Decoded.complete show.
Proof.
  unfold Decoded.complete, Decoded.requiredFields. split.
  - destruct show as [| b | n | s | items | members]; cbn; try discriminate.
    intros H. exists members. split; [reflexivity |].
    intros field Hin.
    repeat match type of H with
           | context [Decoded.member ?f members] =>
             destruct (Decoded.member f members) eqn:?; [| discriminate]
           end.
    cbn in Hin. intuition subst; congruence.
  - intros (members & -> & H). cbn.
    repeat match goal with
           | |- context [Decoded.member ?f members] =>
             let E := fresh in
             destruct (Decoded.member f members) eqn:E;
             [| exfalso; apply (H f); [cbn; tauto | exact E]]
           end.
    reflexivity.
Qed.

Lemma checkShows_valid (i : nat) (shows : list JSONValue) :
  Decoded.checkShows i shows = Decoded.Verdict {| valid := true; error := None |}
  <-> Forall Decoded.complete shows.
Proof.
  revert i. induction shows as [| show rest IH]; intros i.
  - split; [constructor | reflexivity].
  - cbn [Decoded.checkShows]. split.
    + destruct (Decoded.checkFields Decoded.requiredFields show) as [[field |] |] eqn:Hc;
        try discriminate. intros H. constructor.
      * now apply checkFields_complete.
      * now apply (IH (S i)).
    + intros H. inversion H as [| ? ? Hshow Hrest]; subst.
      apply checkFields_complete in Hshow. rewrite Hshow. now apply IH.
Qed.

Lemma array_test (value : option JSONValue) :
  negb (Decoded.truthy value) || negb (Decoded.isArray value) = false
  <-> exists items, value = Some (JArray items).
Proof.
  split.
  - destruct value as [[| b | n | s | items | members] |]; cbn;
      rewrite ?orb_true_r; try discriminate. intros _. now exists items.
  - intros [items ->]. reflexivity.
Qed.

Lemma object_test (value : option JSONValue) :
  negb (Decoded.truthy value) || negb (Decoded.isObjectType value) = false
  <-> exists config, value = Some config /\ Decoded.objectOrArray config.
Proof.
  split.
  - destruct value as [[| b | n | s | items | members] |]; cbn;
      rewrite ?orb_true_r; try discriminate; intros _; eexists; split;
      try reflexivity; exact I.
  - intros [config [-> Hobj]]. destruct config; cbn in Hobj; try contradiction; reflexivity.
Qed.

Lemma structure_accepted (data : JSONValue) (shows older : list JSONValue)
    (config : JSONValue) :
  Decoded.getProperty data "upcoming" = Some (JArray shows) ->
  Decoded.getProperty data "past" = Some (JArray older) ->
  Decoded.getProperty data "settings" = Some config ->
  Decoded.objectOrArray config ->
  Decoded.validateShowsStructure data = Decoded.checkShows 0 shows.
Proof.
  intros Hu Hp Hs Hobj. unfold Decoded.validateShowsStructure.
  destruct data as [| b | n | s | items | members]; try discriminate.
  cbn [Decoded.typeof String.eqb Ascii.eqb Bool.eqb negb orb].
  rewrite (proj2 (array_test _) (ex_intro _ shows Hu)).
  rewrite (proj2 (array_test _) (ex_intro _ older Hp)).
  rewrite (proj2 (object_test _) (ex_intro _ config (conj Hs Hobj))).
  now rewrite Hu.
Qed.

(** X16. What the structure check accepts: exactly the objects whose
    [upcoming] and [past] are arrays, whose [settings] is an object or an
    array, and whose upcoming shows are objects with the five required
    fields.  Neither the past shows nor the value of any field is looked
    at. *)
Theorem valid_structure_iff (data : JSONValue) :
  Decoded.validateShowsStructure data = Decoded.Verdict {| valid := true; error := None |}
  <-> exists shows older config,
        Decoded.getProperty data "upcoming" = Some (JArray shows)
        /\ Decoded.getProperty data "past" = Some (JArray older)
        /\ Decoded.getProperty data "settings" = Some config
        /\ Decoded.objectOrArray config
        /\ Forall Decoded.complete shows.
Proof.
  split.
  - unfold Decoded.validateShowsStructure.
    destruct (negb (String.eqb (Decoded.typeof data) "object") || _); [discriminate |].
    destruct (negb (Decoded.truthy (Decoded.getProperty data "upcoming")) || _) eqn:Hu;
      [discriminate |].
    destruct (negb (Decoded.truthy (Decoded.getProperty data "past")) || _) eqn:Hp;
      [discriminate |].
    destruct (negb (Decoded.truthy (Decoded.getProperty data "settings")) || _) eqn:Hs;
      [discriminate |].
    apply array_test in Hu, Hp. apply object_test in Hs.
    destruct Hu as [shows Hu]. destruct Hp as [older Hp]. destruct Hs as (config & Hs & Hobj).
    rewrite Hu. intros H. exists shows, older, config.
    repeat split; try assumption. now apply (checkShows_valid 0).
  - intros (shows & older & config & Hu & Hp & Hs & Hobj & Hall).
    rewrite (structure_accepted data shows older config Hu Hp Hs Hobj).
    now apply checkShows_valid.
Qed.

(** The shows before the first faulty one pass the loop. *)
Lemma checkShows_skips (good rest : list JSONValue) (i : nat) :
  Forall Decoded.complete good ->
  Decoded.checkShows i (good ++ rest) = Decoded.checkShows (i + List.length good) rest.
Proof.
  intros Hgood. revert i. induction Hgood as [| show good Hshow _ IH]; intros i.
  - cbn. now rewrite Nat.add_0_r.
  - cbn [app Decoded.checkShows List.length].
    apply checkFields_complete in Hshow. rewrite Hshow, IH. f_equal. lia.
Qed.

(** X17. The first fault decides the verdict.  Where the first upcoming
    show that is not complete is an object or an array, the check reports
    its position, counted from one, and the first required field it
    lacks; where it is [null], a number, a string or a boolean, the check
    throws instead of returning a verdict. *)
Theorem first_fault_decides (data : JSONValue) (good rest : list JSONValue)
    (faulty : JSONValue) (older : list JSONValue) (config : JSONValue) :
  Decoded.getProperty data "upcoming" = Some (JArray (good ++ faulty :: rest)) ->
  Decoded.getProperty data "past" = Some (JArray older) ->
  Decoded.getProperty data "settings" = Some config ->
  Decoded.objectOrArray config ->
  Forall Decoded.complete good ->
  (forall before field after,
      Decoded.requiredFields = before ++ field :: after ->
      (forall f, In f before -> Decoded.hasField f faulty = Some true) ->
      Decoded.hasField field faulty = Some false ->
      Decoded.validateShowsStructure data
      = Decoded.Verdict
          {| valid := false;
             error := Some ("Upcoming show #"
                            +:+ showNumber (Z.of_nat (List.length good + 1))
                            +:+ " missing field: " +:+ field) |})
  /\ (Decoded.hasField "date" faulty = None ->
      Decoded.validateShowsStructure data = Decoded.ThrowsTypeError).
Proof.
  intros Hu Hp Hs Hobj Hgood.
  assert (Hrun : Decoded.validateShowsStructure data
                 = Decoded.checkShows (List.length good) (faulty :: rest)).
  { rewrite (structure_accepted data _ older config Hu Hp Hs Hobj).
    now rewrite (checkShows_skips good _ 0 Hgood). }
  rewrite Hrun. cbn [Decoded.checkShows]. split.
  - intros before field after Hreq Hbefore Hfield.
    assert (Hc : Decoded.checkFields Decoded.requiredFields faulty = Some (Some field)).
    { rewrite Hreq. clear Hreq. induction before as [| f before IH].
      - cbn. now rewrite Hfield.
      - cbn. rewrite (Hbefore f (or_introl eq_refl)). apply IH.
        intros g Hg. apply Hbefore. now right. }
    now rewrite Hc.
  - intros Hthrow. cbn. now rewrite Hthrow.
Qed.

Lemma member_present (key : string) (value : JSONValue)
    (members : list (string * JSONValue)) :
  In (key, value) members -> Decoded.member key members <> None.
Proof.
  induction members as [| [k v] rest IH]; [contradiction |].
  intros [Heq | Hin]; cbn [Decoded.member].
  - injection Heq as -> ->. destruct (Decoded.member key rest); [discriminate |].
    rewrite String.eqb_refl. discriminate.
  - destruct (Decoded.member key rest); [discriminate |]. now apply IH in Hin.
Qed.

Lemma ofShow_complete (show : Show) : Decoded.complete (Decoded.ofShow show).
Proof.
  exists ([("date", JString (Show.date show)); ("time", JString (Show.time show));
           ("venue", JString (Show.venue show)); ("city", JString (Show.city show));
           ("status", JString (Decoded.statusText (Show.status show)))]
          ++ match Show.ticketUrl show with
             | Some url => [("ticketUrl", JString url)]
             | None => []
             end
          ++ Show.extra show).
  split; [reflexivity |]. intros field Hin.
  cbn [Decoded.requiredFields In] in Hin.
  destruct Hin as [<- | [<- | [<- | [<- | [<- | []]]]]];
    eapply member_present; cbn [app In]; eauto 7.
Qed.

(** X18. Every document of the declared shape passes the structure check,
    whatever its shows, settings and extra fields are, also when an extra
    field repeats a required key. *)
Theorem typed_documents_are_valid (data : ShowsData) :
  Decoded.validateShowsStructure (Decoded.ofShowsData data)
  = Decoded.Verdict {| valid := true; error := None |}.
Proof.
  rewrite (structure_accepted (Decoded.ofShowsData data)
             (map Decoded.ofShow (upcoming data)) (map Decoded.ofShow (past data))
             (Decoded.ofSettings (settings data)));
    try reflexivity; try exact I.
  apply checkShows_valid. apply List.Forall_map.
  apply List.Forall_forall. intros show _. apply ofShow_complete.
Qed.

(* ===================================================================== *)
(** ** The report *)
(* ===================================================================== *)

Lemma append_assoc (a b c : string) : (a +:+ b) +:+ c = a +:+ b +:+ c.
Proof.
  induction a as [| ch a IH]; [reflexivity |].
  change (String ch ((a +:+ b) +:+ c) = String ch (a +:+ b +:+ c)). now rewrite IH.
Qed.

Lemma append_empty_r (a : string) : a +:+ EmptyString = a.
Proof.
  induction a as [| ch a IH]; [reflexivity |].
  change (String ch (a +:+ EmptyString) = String ch a). now rewrite IH.
Qed.

Lemma occursIn_refl (a : string) : occursIn a a.
Proof.
  exists EmptyString, EmptyString. change (a = a +:+ EmptyString).
  now rewrite append_empty_r.
Qed.

Lemma occursIn_left (piece a b : string) : occursIn piece a -> occursIn piece (a +:+ b).
Proof.
  intros (before & after & ->). exists before, (after +:+ b).
  now rewrite !append_assoc.
Qed.

Lemma occursIn_right (piece a b : string) : occursIn piece b -> occursIn piece (a +:+ b).
Proof.
  intros (before & after & ->). exists (a +:+ before), after.
  now rewrite !append_assoc.
Qed.

Lemma forEachLine_has {A : Type} (line : nat -> A -> string) (items : list A)
    (index k : nat) (item : A) :
  nth_error items k = Some item ->
  occursIn (line (index + k)%nat item) (forEachLine line index items).
Proof.
  revert index k. induction items as [| first rest IH]; intros index [| k] H;
    try discriminate; cbn [forEachLine].
  - injection H as ->. rewrite Nat.add_0_r. apply occursIn_left, occursIn_refl.
  - apply occursIn_right. replace (index + S k)%nat with (S index + k)%nat by lia.
    now apply IH.
Qed.

(** X19. A report leaves out no warning and no error: each one is printed
    on a line of its own, numbered from one in the order of the result,
    under its heading; and when shows are archived, each is listed with
    its date, venue, city and [daysAgo]. *)
Theorem report_prints_every_entry (timestamp : string) (result : ArchiveResult)
    (backupPath : string) (reportType : RunReport) (k : nat) :
  (forall warning, nth_error (warnings result) k = Some warning ->
     exists lines,
       occursIn ("## Warnings" +:+ newline +:+ newline +:+ lines +:+ newline)
         (generateReport timestamp result backupPath reportType)
       /\ occursIn (showNumber (Z.of_nat (k + 1)) +:+ ". " +:+ warning +:+ newline) lines)
  /\ (forall problem, nth_error (result_errors result) k = Some problem ->
     exists lines,
       occursIn ("## Errors" +:+ newline +:+ newline +:+ lines +:+ newline)
         (generateReport timestamp result backupPath reportType)
       /\ occursIn (showNumber (Z.of_nat (k + 1)) +:+ ". " +:+ problem +:+ newline) lines)
  /\ (forall show, (0 < archived result)%nat ->
     nth_error (archivedShows result) k = Some show ->
     exists lines,
       occursIn (" Archived" +:+ newline +:+ newline +:+ lines +:+ newline)
         (generateReport timestamp result backupPath reportType)
       /\ occursIn
            (showNumber (Z.of_nat (k + 1)) +:+ ". **" +:+ ArchivedShow.date show
             +:+ "** - " +:+ ArchivedShow.venue show +:+ ", " +:+ ArchivedShow.city show
             +:+ " (" +:+ showNumber (ArchivedShow.daysAgo show) +:+ " day(s) ago)"
             +:+ newline)
            lines).
Proof.
  assert (Hnonempty : forall (A : Type) (items : list A) (item : A),
             nth_error items k = Some item -> (0 <? List.length items)%nat = true).
  { intros A [| first rest] item H; [destruct k; discriminate | reflexivity]. }
  unfold generateReport. repeat split.
  - intros warning Hk. exists (forEachLine numberedLine 0 (warnings result)).
    rewrite (Hnonempty _ _ _ Hk). split.
    + do 11 apply occursIn_right. apply occursIn_left.
      rewrite !append_assoc. apply occursIn_refl.
    + exact (forEachLine_has numberedLine _ 0 k warning Hk).
  - intros problem Hk. exists (forEachLine numberedLine 0 (result_errors result)).
    rewrite (Hnonempty _ _ _ Hk). split.
    + do 12 apply occursIn_right. rewrite !append_assoc. apply occursIn_refl.
    + exact (forEachLine_has numberedLine _ 0 k problem Hk).
  - intros show Hpos Hk. exists (forEachLine archivedLine 0 (archivedShows result)).
    apply Nat.ltb_lt in Hpos. rewrite Hpos. split.
    + do 10 apply occursIn_right. apply occursIn_left.
      rewrite !append_assoc. do 2 apply occursIn_right. apply occursIn_refl.
    + exact (forEachLine_has archivedLine _ 0 k show Hk).
Qed.

(* ===================================================================== *)
(** ** The further theorems at the sample data *)
(* ===================================================================== *)

Lemma daysAgo_counts_whole_days_witness :
  (setHours0 Amsterdam2025 dec6 <> setHours0 Amsterdam2025 dec4_midnight ->
     daysAgo (shouldArchiveShow Amsterdam2025 "Dec 4, 2025" dec6) * msPerDay
     <= setHours0 Amsterdam2025 dec6 - setHours0 Amsterdam2025 dec4_midnight
     < (daysAgo (shouldArchiveShow Amsterdam2025 "Dec 4, 2025" dec6) + 1) * msPerDay)
  /\ (setHours0 Amsterdam2025 dec6 < setHours0 Amsterdam2025 dec4_midnight ->
      daysAgo (shouldArchiveShow Amsterdam2025 "Dec 4, 2025" dec6) <= -1)
  /\ (setHours0 Amsterdam2025 dec6 = setHours0 Amsterdam2025 dec4_midnight ->
      daysAgo (shouldArchiveShow Amsterdam2025 "Dec 4, 2025" dec6) = 0)
  /\ (setHours0 Amsterdam2025 dec4_midnight < setHours0 Amsterdam2025 dec6 ->
      0 <= daysAgo (shouldArchiveShow Amsterdam2025 "Dec 4, 2025" dec6))
  /\ (msPerDay <= setHours0 Amsterdam2025 dec6 - setHours0 Amsterdam2025 dec4_midnight ->
      1 <= daysAgo (shouldArchiveShow Amsterdam2025 "Dec 4, 2025" dec6)).
Proof.
  apply (daysAgo_counts_whole_days Amsterdam2025 "Dec 4, 2025" dec6 dec4_midnight);
    vm_compute; reflexivity.
Defined.

Lemma daysAgo_without_clock_changes_witness :
  daysAgo (shouldArchiveShow (fixedOffset msPerHour) "Dec 4, 2025" dec6)
  = localDay (fixedOffset msPerHour) dec6 - localDay (fixedOffset msPerHour) dec4_midnight
  /\ (shouldArchive (shouldArchiveShow (fixedOffset msPerHour) "Dec 4, 2025" dec6) = true
      <-> localDay (fixedOffset msPerHour) dec4_midnight
          < localDay (fixedOffset msPerHour) dec6)
  /\ (shouldArchive (shouldArchiveShow (fixedOffset msPerHour) "Dec 4, 2025" dec6) = true ->
      1 <= daysAgo (shouldArchiveShow (fixedOffset msPerHour) "Dec 4, 2025" dec6)).
Proof.
  apply (daysAgo_without_clock_changes msPerHour "Dec 4, 2025" dec6 dec4_midnight);
    vm_compute; reflexivity.
Defined.

Lemma archived_stays_archived_witness :
  shouldArchive (shouldArchiveShow (fixedOffset msPerHour) "Dec 4, 2025" dec6_later) = true.
Proof.
  apply (archived_stays_archived msPerHour "Dec 4, 2025" dec6 dec6_later).
  - vm_compute. discriminate.
  - vm_compute. reflexivity.
Defined.

Lemma archived_shows_are_never_future_witness :
  Forall (fun show => 0 <= ArchivedShow.daysAgo show)
    (archivedShows (reportOf Amsterdam2025 dec6 mainSite "shows.json" fifteenShows))
  /\ warnings (reportOf Amsterdam2025 dec6 mainSite "shows.json" fifteenShows)
     = (if (remaining (reportOf Amsterdam2025 dec6 mainSite "shows.json" fifteenShows) =? 0)%nat
           && (0 <? archived (reportOf Amsterdam2025 dec6 mainSite "shows.json"
                                 fifteenShows))%nat
        then [warnAll] else [])
       ++ (if (10 <? archived (reportOf Amsterdam2025 dec6 mainSite "shows.json"
                                 fifteenShows))%nat
           then [warnMany (archived (reportOf Amsterdam2025 dec6 mainSite "shows.json"
                                       fifteenShows))]
           else [])
       ++ map warnToday
            (List.filter (fun show => ArchivedShow.daysAgo show =? 0)
               (archivedShows (reportOf Amsterdam2025 dec6 mainSite "shows.json"
                                 fifteenShows))).
Proof.
  apply (archived_shows_are_never_future Amsterdam2025 dec6 mainSite "shows.json" "backups"
           true (worldWith fifteenShows [])
           (snd (archiveShows Amsterdam2025 dec6 mainSite "shows.json" "backups" true
                   (worldWith fifteenShows [])))
           fifteenShows);
    vm_compute; reflexivity.
Defined.

Lemma result_counts_add_up_witness :
  originalUpcoming (reportOf Amsterdam2025 dec6 mainSite "shows.json" threeShows)
  = List.length (upcoming threeShows)
  /\ originalPast (reportOf Amsterdam2025 dec6 mainSite "shows.json" threeShows)
     = List.length (past threeShows)
  /\ (archived (reportOf Amsterdam2025 dec6 mainSite "shows.json" threeShows)
      + remaining (reportOf Amsterdam2025 dec6 mainSite "shows.json" threeShows)
      = originalUpcoming (reportOf Amsterdam2025 dec6 mainSite "shows.json" threeShows))%nat
  /\ (totalPast (reportOf Amsterdam2025 dec6 mainSite "shows.json" threeShows)
      = originalPast (reportOf Amsterdam2025 dec6 mainSite "shows.json" threeShows)
        + archived (reportOf Amsterdam2025 dec6 mainSite "shows.json" threeShows))%nat
  /\ List.length (archivedShows (reportOf Amsterdam2025 dec6 mainSite "shows.json" threeShows))
     = archived (reportOf Amsterdam2025 dec6 mainSite "shows.json" threeShows)
  /\ map ArchivedShow.date
       (archivedShows (reportOf Amsterdam2025 dec6 mainSite "shows.json" threeShows))
     = map Show.date (toArchive Amsterdam2025 dec6 (upcoming threeShows))
  /\ map ArchivedShow.daysAgo
       (archivedShows (reportOf Amsterdam2025 dec6 mainSite "shows.json" threeShows))
     = map (fun show => daysAgo (shouldArchiveShow Amsterdam2025 (Show.date show) dec6))
         (toArchive Amsterdam2025 dec6 (upcoming threeShows))
  /\ result_errors (reportOf Amsterdam2025 dec6 mainSite "shows.json" threeShows) = [].
Proof.
  apply (result_counts_add_up Amsterdam2025 dec6 mainSite "shows.json" "backups"
           false (worldWith threeShows [])
           (snd (archiveShows Amsterdam2025 dec6 mainSite "shows.json" "backups" false
                   (worldWith threeShows [])))
           threeShows);
    vm_compute; reflexivity.
Defined.

Lemma preview_predicts_apply_witness :
  fst (archiveShows Amsterdam2025 dec6 mainSite "shows.json" "backups" true
         (worldWith threeShows [NoFault; NoFault; Fails]))
  = fst (archiveShows Amsterdam2025 dec6 mainSite "shows.json" "backups" false
           (worldWith threeShows [NoFault; NoFault; Fails])).
Proof.
  apply (preview_predicts_apply Amsterdam2025 dec6 mainSite "shows.json" "backups"
           (worldWith threeShows [NoFault; NoFault; Fails]) threeShows).
  reflexivity.
Defined.

Lemma unreadable_file_is_left_alone_witness :
  (fst (archiveShows Amsterdam2025 dec6 mainSite "missing.json" "backups" false
          (worldWith threeShows []))
   = Throws (ENOENT "missing.json")
   /\ files (snd (archiveShows Amsterdam2025 dec6 mainSite "missing.json" "backups" false
                    (worldWith threeShows [])))
      = files (worldWith threeShows [])
   /\ trace (snd (archiveShows Amsterdam2025 dec6 mainSite "missing.json" "backups" false
                    (worldWith threeShows [])))
      = trace (worldWith threeShows []))
  /\ (fst (archiveShows Amsterdam2025 dec6 mainSite "shows.json" "backups" false
             (worldWithBrokenFile []))
      = Throws SyntaxError
      /\ files (snd (archiveShows Amsterdam2025 dec6 mainSite "shows.json" "backups" false
                       (worldWithBrokenFile [])))
         = files (worldWithBrokenFile [])
      /\ trace (snd (archiveShows Amsterdam2025 dec6 mainSite "shows.json" "backups" false
                       (worldWithBrokenFile [])))
         = trace (worldWithBrokenFile [])).
Proof.
  split.
  - exact (proj1 (unreadable_file_is_left_alone Amsterdam2025 dec6 mainSite "missing.json"
                    "backups" false (worldWith threeShows []) eq_refl) eq_refl).
  - exact (proj2 (unreadable_file_is_left_alone Amsterdam2025 dec6 mainSite "shows.json"
                    "backups" false (worldWithBrokenFile []) eq_refl) eq_refl).
Defined.

Lemma clean_write_installs_the_document_witness :
  exists w',
    writeShowsFile "shows.json" nothingToArchive (worldWithStaleBackup [])
    = (Returns (Fulfilled tt), w')
    /\ files w'
       = <["shows.json" := JSON_stringify nothingToArchive]>
           (delete ("shows.json" +:+ ".tmp")
              (delete ("shows.json" +:+ ".backup") (files (worldWithStaleBackup []))))
    /\ faults w' = [] /\ unhandled w' = unhandled (worldWithStaleBackup []).
Proof.
  apply (clean_write_installs_the_document "shows.json" nothingToArchive
           (worldWithStaleBackup [])).
  reflexivity.
Defined.

Lemma failed_write_is_rolled_back_witness :
  exists e w',
    writeShowsFile "shows.json" nothingToArchive
      (worldWith threeShows [NoFault; NoFault; NoFault; Fails])
    = (Returns (Rejected e), w')
    /\ files w'
       = delete ("shows.json" +:+ ".tmp")
           (files (worldWith threeShows [NoFault; NoFault; NoFault; Fails]))
    /\ In (faults (worldWith threeShows [NoFault; NoFault; NoFault; Fails]), e)
         [([Fails], EIO "writeFileSync"); ([Truncates], SyntaxError);
          ([NoFault; Fails], EIO "readFileSync");
          ([NoFault; NoFault; Fails], EIO "copyFileSync");
          ([NoFault; NoFault; NoFault; Fails], EIO "renameSync")].
Proof.
  apply (failed_write_is_rolled_back "shows.json" nothingToArchive
           (worldWith threeShows [NoFault; NoFault; NoFault; Fails])
           (Json (Structured threeShows)));
    [reflexivity | reflexivity |].
  cbn [worldWith faults In]. tauto.
Defined.

Lemma run_touches_only_its_three_paths_witness :
  files (snd (archiveShows Amsterdam2025 dec6 mainSite "shows.json" "backups" false
                (worldWithTwoSites [NoFault; NoFault; Fails])))
    !! "unplugged/shows.json"
  = files (worldWithTwoSites [NoFault; NoFault; Fails]) !! "unplugged/shows.json".
Proof.
  apply (run_touches_only_its_three_paths Amsterdam2025 dec6 mainSite "shows.json" "backups"
           false (worldWithTwoSites [NoFault; NoFault; Fails]) "unplugged/shows.json");
    discriminate.
Defined.

Lemma stale_backup_replaces_the_target_witness :
  exists w',
    writeShowsFile "shows.json" threeShows (worldWithStaleBackup [Fails])
    = (Returns (Rejected (EIO "writeFileSync")), w')
    /\ files w' !! "shows.json" = Some (Json (Structured nothingToArchive))
    /\ files w' !! ("shows.json" +:+ ".backup") = None.
Proof.
  apply (stale_backup_replaces_the_target "shows.json" threeShows
           (worldWithStaleBackup [Fails]) (Json (Structured threeShows))
           (Json (Structured nothingToArchive))); reflexivity.
Defined.

Lemma failed_cleanup_undoes_the_write_witness :
  exists w',
    writeShowsFile "shows.json" nothingToArchive
      (worldWith threeShows [NoFault; NoFault; NoFault; NoFault; Fails])
    = (Returns (Rejected (EIO "unlinkSync")), w')
    /\ files w' !! "shows.json" = Some (Json (Structured threeShows))
    /\ files w' !! ("shows.json" +:+ ".tmp") = None
    /\ files w' !! ("shows.json" +:+ ".backup") = None
    /\ In (Rename ("shows.json" +:+ ".tmp") "shows.json") (trace w')
    /\ In (CopyFile ("shows.json" +:+ ".backup") "shows.json") (trace w').
Proof.
  apply (failed_cleanup_undoes_the_write "shows.json" nothingToArchive
           (worldWith threeShows [NoFault; NoFault; NoFault; NoFault; Fails])
           (Json (Structured threeShows))); reflexivity.
Defined.

Lemma write_errors_never_reach_the_caller_witness :
  exists w',
    archiveShows Amsterdam2025 dec6 mainSite "shows.json" "backups" false
      (worldWithOlderBackup [NoFault; NoFault; NoFault; Fails])
    = (Returns (reportOf Amsterdam2025 dec6 mainSite "shows.json" threeShows), w')
    /\ (unhandled w' = unhandled (worldWithOlderBackup [NoFault; NoFault; NoFault; Fails]) ->
        files w' !! "shows.json"
        = Some (Json (Structured (archivedDocument Amsterdam2025 dec6 threeShows))))
    /\ (unhandled w' <> unhandled (worldWithOlderBackup [NoFault; NoFault; NoFault; Fails]) ->
        exists e,
          unhandled w'
          = unhandled (worldWithOlderBackup [NoFault; NoFault; NoFault; Fails]) ++ [e]).
Proof.
  apply (write_errors_never_reach_the_caller Amsterdam2025 dec6 mainSite "shows.json"
           "backups" (worldWithOlderBackup [NoFault; NoFault; NoFault; Fails]) threeShows);
    reflexivity.
Defined.

Lemma first_fault_decides_witness :
  (forall before field after,
      Decoded.requiredFields = before ++ field :: after ->
      (forall f, In f before -> Decoded.hasField f showWithoutVenue = Some true) ->
      Decoded.hasField field showWithoutVenue = Some false ->
      Decoded.validateShowsStructure documentWithFault
      = Decoded.Verdict
          {| valid := false;
             error := Some ("Upcoming show #"
                            +:+ showNumber
                                  (Z.of_nat
                                     (List.length
                                        [Decoded.ofShow (sampleShow "Dec 4, 2025" "Paradiso")]
                                      + 1))
                            +:+ " missing field: " +:+ field) |})
  /\ (Decoded.hasField "date" showWithoutVenue = None ->
      Decoded.validateShowsStructure documentWithFault = Decoded.ThrowsTypeError).
Proof.
  apply (first_fault_decides documentWithFault
           [Decoded.ofShow (sampleShow "Dec 4, 2025" "Paradiso")] [JNull]
           showWithoutVenue [JNull; JNumber 7] (JObject []));
    try reflexivity; try exact I.
  repeat constructor. apply ofShow_complete.
Defined.
